(** * logistic-app: the shipping calculator page and its pricing engine

    The client component [CalculatePage] (src/frontend/src/components/
    CalculatePage.tsx) is embedded from its TypeScript source: the hook
    state as a record, the event handlers as computations in a small
    state-and-completion monad, the JSX of the dynamic parts as a tree.
    The pricing engine is served by the Python backend, which is not part
    of the sources at hand; it is modelled from the specification. *)

From Stdlib Require Import Bool Arith ZArith QArith Qround.
From Stdlib Require Import Ascii String List DecimalString Lia Lqa.
From Stdlib Require Import Permutation.
Import ListNotations.

Local Open Scope string_scope.
Local Set Warnings "-register-all".

(** ** Host language: the JavaScript values and built-ins the page uses *)

Module JS.

(** A JavaScript number.  Finite values carry their exact value; the
    binary rounding performed by the host stays inside the host
    functions ([parseFloat] is a parameter of the handler below). *)
Inductive number : Type :=
| NaN
| Infinity (negative : bool)
| Finite (q : Q).

Definition isNaN (x : number) : bool :=
  match x with NaN => true | _ => false end.

(** [x <= 0]: a comparison with NaN is false. *)
Definition le_zero (x : number) : bool :=
  match x with
  | NaN => false
  | Infinity negative => negative
  | Finite q => Qle_bool q 0
  end.

(** Truthiness of a string: only the empty string is falsy. *)
Definition truthy (s : string) : bool :=
  match s with EmptyString => false | String _ _ => true end.

(** [a || b] where [a] is a possibly undefined string. *)
Definition or_else (a : option string) (b : string) : string :=
  match a with
  | Some s => if truthy s then s else b
  | None => b
  end.

Fixpoint drop (n : nat) (s : string) : string :=
  match n, s with
  | O, _ => s
  | S _, EmptyString => EmptyString
  | S n', String _ s' => drop n' s'
  end.

(** [s.replace(pattern, replacement)] with a string pattern: only the
    first occurrence is replaced. *)
Fixpoint replace (pattern replacement s : string) : string :=
  if String.prefix pattern s
  then replacement ++ drop (String.length pattern) s
  else match s with
       | EmptyString => EmptyString
       | String c s' => String c (replace pattern replacement s')
       end.

(** [s.includes(needle)]. *)
Fixpoint includes (needle s : string) : bool :=
  if String.prefix needle s then true
  else match s with
       | EmptyString => false
       | String _ s' => includes needle s'
       end.

Fixpoint take (n : nat) (s : string) : string :=
  match n, s with
  | O, _ => EmptyString
  | S _, EmptyString => EmptyString
  | S n', String c s' => String c (take n' s')
  end.

Fixpoint zeros (k : nat) : string :=
  match k with
  | O => EmptyString
  | S k' => String "0" (zeros k')
  end.

(** The decimal digits of a non-negative integer, ["0"] for zero. *)
Definition digits (n : Z) : string :=
  NilZero.string_of_uint (N.to_uint (Z.to_N n)).

Fixpoint strip_trailing_zeros (s : string) : string :=
  match s with
  | EmptyString => EmptyString
  | String c s' =>
      match strip_trailing_zeros s' with
      | EmptyString =>
          if Ascii.eqb c "0" then EmptyString else String c EmptyString
      | t => String c t
      end
  end.

(** [Number::toString] of a finite [x >= 10^21]: one digit, the further
    significant digits after a point if there are any, then [e+] and the
    decimal exponent.  The digits are those of the exact integer part;
    the host prints the shortest digits that read back as the same
    binary64 value, which are these whenever the value is a power of ten
    that binary64 holds exactly (10^21 and 10^22). *)
Definition exponential (x : Q) : string :=
  let all := digits (Qfloor x) in
  let n := String.length all in
  let s := strip_trailing_zeros all in
  let mantissa :=
    match s with
    | String d EmptyString => s
    | String d rest => String d (String "." rest)
    | EmptyString => s
    end in
  mantissa ++ "e+" ++ digits (Z.of_nat (n - 1)).

Definition TEN_POW_21 : Q := inject_Z (10 ^ 21).

(** The integer [n] for which [n / 10^f - x] is closest to zero, the
    larger one when two are equally close ([x] is not negative). *)
Definition nearest_scaled (f : nat) (x : Q) : Z :=
  Qfloor (x * inject_Z (10 ^ Z.of_nat f) + (1 # 2)).

(** [Number.prototype.toFixed(fractionDigits)], for [fractionDigits]
    between 0 and 100 (outside that range the host throws a
    RangeError; the page calls it with 2). *)
Definition toFixed (fractionDigits : nat) (v : number) : string :=
  match v with
  | NaN => "NaN"
  | Infinity negative => if negative then "-Infinity" else "Infinity"
  | Finite q =>
      let s := if Qle_bool 0 q then "" else "-" in
      let x := if Qle_bool 0 q then q else Qopp q in
      let m :=
        if Qle_bool TEN_POW_21 x then exponential x
        else
          let m := digits (nearest_scaled fractionDigits x) in
          match fractionDigits with
          | O => m
          | S _ =>
              let m := if (String.length m <=? fractionDigits)%nat
                       then zeros (fractionDigits + 1 - String.length m)%nat ++ m
                       else m in
              let k := String.length m in
              take (k - fractionDigits)%nat m ++ "."
                ++ drop (k - fractionDigits)%nat m
          end in
      s ++ m
  end.

Definition is_digit (c : ascii) : bool :=
  (48 <=? nat_of_ascii c)%nat && (nat_of_ascii c <=? 57)%nat.

Fixpoint all_digits (s : string) : bool :=
  match s with
  | EmptyString => true
  | String c s' => is_digit c && all_digits s'
  end.

(** A text shows a number with exactly two decimal digits: digits (at
    least one), a point, two digits, and nothing else. *)
Definition two_decimal_digits (s : string) : Prop :=
  exists a b,
    s = a ++ "." ++ b /\
    a <> EmptyString /\ all_digits a = true /\
    all_digits b = true /\ String.length b = 2%nat.

(** *** A reference reading of decimal literals

    [parseFloat] belongs to the host and rounds to binary64; the handler
    takes it as a parameter.  [parseFloat_exact] is the same reading
    without the rounding: leading ASCII white space is skipped, then the
    longest prefix that is a signed decimal literal (or [Infinity]) is
    taken at its exact value. *)

Definition is_space (c : ascii) : bool :=
  match nat_of_ascii c with
  | 9 | 10 | 11 | 12 | 13 | 32 => true
  | _ => false
  end%nat.

Fixpoint trim_start (s : string) : string :=
  match s with
  | String c s' => if is_space c then trim_start s' else s
  | EmptyString => s
  end.

Definition digit_value (c : ascii) : Z := Z.of_nat (nat_of_ascii c) - 48.

(** Reads a run of digits: its value after [acc], how many there were,
    and what follows. *)
Fixpoint read_digits (s : string) (acc : Z) (count : nat) : Z * nat * string :=
  match s with
  | String c s' =>
      if is_digit c then read_digits s' (10 * acc + digit_value c) (S count)
      else (acc, count, s)
  | EmptyString => (acc, count, s)
  end.

Definition read_sign (s : string) : bool * string :=
  match s with
  | String "-" s' => (true, s')
  | String "+" s' => (false, s')
  | _ => (false, s)
  end.

Definition read_exponent (s : string) : Z :=
  match s with
  | String c s' =>
      if Ascii.eqb c "e" || Ascii.eqb c "E" then
        let '(negative, s'') := read_sign s' in
        let '(e, n, _) := read_digits s'' 0 0 in
        if (n =? 0)%nat then 0%Z else if negative then (- e)%Z else e
      else 0%Z
  | EmptyString => 0%Z
  end.

Definition parseFloat_exact (input : string) : number :=
  let '(negative, s) := read_sign (trim_start input) in
  if String.prefix "Infinity" s then Infinity negative
  else
    let '(int_part, int_count, s1) := read_digits s 0 0 in
    let '(frac_part, frac_count, s2) :=
      match s1 with
      | String "." s' => read_digits s' 0 0
      | _ => (0%Z, 0%nat, s1)
      end in
    if (int_count + frac_count =? 0)%nat then NaN
    else
      let magnitude :=
        inject_Z (int_part * 10 ^ Z.of_nat frac_count + frac_part)
        * Qpower 10 (read_exponent s2 - Z.of_nat frac_count) in
      Finite (if negative then Qopp magnitude else magnitude).

(** *** Case conversion on ASCII letters

    [toLowerCase] and [toUpperCase] belong to the host and follow the
    Unicode case mappings; the render functions take them as
    parameters.  These are their restrictions to ASCII letters. *)

Definition lower_ascii (c : ascii) : ascii :=
  let n := nat_of_ascii c in
  if (65 <=? n)%nat && (n <=? 90)%nat then ascii_of_nat (n + 32) else c.

Definition upper_ascii (c : ascii) : ascii :=
  let n := nat_of_ascii c in
  if (97 <=? n)%nat && (n <=? 122)%nat then ascii_of_nat (n - 32) else c.

Fixpoint map_string (f : ascii -> ascii) (s : string) : string :=
  match s with
  | EmptyString => EmptyString
  | String c s' => String (f c) (map_string f s')
  end.

Definition toLowerCase_ascii : string -> string := map_string lower_ascii.
Definition toUpperCase_ascii : string -> string := map_string upper_ascii.

(** Values a [throw] can carry, as far as [instanceof Error] and
    [.message] can tell them apart. *)
Inductive thrown : Type :=
| ErrorObject (message : string)
| NotAnError.

End JS.

(** ** The component state and its handlers *)

Module CalculatePage.
Import JS.

Inductive Destination : Type := national | international.

Record ShippingFormData : Type := mkShippingFormData {
  length_cm : string;
  width_cm : string;
  height_cm : string;
  weight_kg : string;
  is_express : bool;
  destination : Destination
}.

Record Dimensions : Type := mkDimensions {
  dim_length_cm : option number;
  dim_width_cm : option number;
  dim_height_cm : option number
}.

Record PackageSummary : Type := mkPackageSummary {
  dimensions : option Dimensions;
  summary_weight_kg : option number
}.

Record ApiResponse : Type := mkApiResponse {
  success : bool;
  calculation_id : option string;
  total_price : option number;
  currency : option string;
  price_breakdown : option (list (string * number));
  alerts : list string;
  estimated_delivery : option string;
  timestamp : option string;
  package_summary : option PackageSummary;
  api_error : option string
}.

(** The four [useState] cells. *)
Record State : Type := mkState {
  formData : ShippingFormData;
  result : option ApiResponse;
  loading : bool;
  error : string
}.

Definition initialFormData : ShippingFormData :=
  mkShippingFormData "" "" "" "" false national.

Definition initialState : State :=
  mkState initialFormData None false "".

(** The body of the POST request, before [JSON.stringify]. *)
Record RequestData : Type := mkRequestData {
  req_length_cm : number;
  req_width_cm : number;
  req_height_cm : number;
  req_weight_kg : number;
  req_is_express : bool;
  req_destination : Destination
}.

(** The second argument of [fetch].  [body] holds the object that the
    source hands to [JSON.stringify]; the text that goes on the wire is
    the host's serialisation of it. *)
Record RequestInit : Type := mkRequestInit {
  method : string;
  headers : list (string * string);
  body : RequestData
}.

(** What [await response.json()] yields. *)
Inductive BodyOutcome : Type :=
| JsonRejects (e : thrown)
| JsonData (data : ApiResponse).

(** What [await fetch(...)] yields. *)
Inductive FetchOutcome : Type :=
| FetchRejects (e : thrown)
| Response (ok : bool) (json : BodyOutcome).

(** The world a handler runs in: the hook cells, the requests sent so
    far (latest first) and whether the form event was cancelled. *)
Record World : Type := mkWorld {
  hooks : State;
  sent : list (string * RequestInit);
  defaultPrevented : bool
}.

(** How a block of statements completes. *)
Inductive Completion (A : Type) : Type :=
| Normal (a : A)
| Throws (e : thrown)
| Returns.
Arguments Normal {A} a.
Arguments Throws {A} e.
Arguments Returns {A}.

Definition Handler (A : Type) : Type := World -> Completion A * World.

Definition ret {A} (a : A) : Handler A := fun w => (Normal a, w).

Definition bind {A B} (m : Handler A) (k : A -> Handler B) : Handler B :=
  fun w =>
    match m w with
    | (Normal a, w') => k a w'
    | (Throws e, w') => (Throws e, w')
    | (Returns, w') => (Returns, w')
    end.

Declare Scope handler_scope.
Delimit Scope handler_scope with handler.
Notation "x <- m ;; k" := (bind m (fun x => k))
  (at level 61, m at next level, right associativity) : handler_scope.
Notation "m ;; k" := (bind m (fun _ => k))
  (at level 61, right associativity) : handler_scope.
Local Open Scope handler_scope.

Definition throw {A} (e : thrown) : Handler A := fun w => (Throws e, w).
Definition return_ {A} : Handler A := fun w => (Returns, w).

Definition modify (f : State -> State) : Handler unit :=
  fun w => (Normal tt, mkWorld (f (hooks w)) (sent w) (defaultPrevented w)).

Definition setFormData (v : ShippingFormData) : Handler unit :=
  modify (fun s => mkState v (result s) (loading s) (error s)).
Definition setResult (v : option ApiResponse) : Handler unit :=
  modify (fun s => mkState (formData s) v (loading s) (error s)).
Definition setLoading (v : bool) : Handler unit :=
  modify (fun s => mkState (formData s) (result s) v (error s)).
Definition setError (v : string) : Handler unit :=
  modify (fun s => mkState (formData s) (result s) (loading s) v).

Definition preventDefault : Handler unit :=
  fun w => (Normal tt, mkWorld (hooks w) (sent w) true).

(** [try { body } catch (err) { handler err } finally { final }]. *)
Definition try_catch_finally {A}
    (body : Handler A) (handler : thrown -> Handler A)
    (final : Handler unit) : Handler A :=
  fun w =>
    let '(c, w1) :=
      match body w with
      | (Throws e, w') => handler e w'
      | other => other
      end in
    match final w1 with
    | (Normal _, w2) => (c, w2)
    | (Throws e, w2) => (Throws e, w2)
    | (Returns, w2) => (Returns, w2)
    end.

(** [for (const x of l) { body x }]. *)
Fixpoint for_of {A} (l : list A) (body : A -> Handler unit) : Handler unit :=
  match l with
  | [] => ret tt
  | x :: l' => body x ;; for_of l' body
  end.

(** [String(formData[field])]: the value [parseFloat] reads. *)
Definition field_text (fd : ShippingFormData) (field : string) : string :=
  if field =? "length_cm" then length_cm fd
  else if field =? "width_cm" then width_cm fd
  else if field =? "height_cm" then height_cm fd
  else if field =? "weight_kg" then weight_kg fd
  else if field =? "is_express" then (if is_express fd then "true" else "false")
  else if field =? "destination" then
    match destination fd with
    | national => "national"
    | international => "international"
    end
  else "undefined".

Definition numericFields : list string :=
  ["length_cm"; "width_cm"; "height_cm"; "weight_kg"].

Definition validationMessage (field : string) : string :=
  "Please enter a valid positive number for " ++ replace "_" " " field.

Definition API_URL : string :=
  "https://logistic-app-m5tv.onrender.com/api/calculate".

Section Handlers.

(** The host's [parseFloat] and the outcome of the network call. *)
Variable parseFloat : string -> number.
Variable fetch : string -> RequestInit -> FetchOutcome.

Definition call_fetch (url : string) (init : RequestInit)
  : Handler FetchOutcome :=
  fun w =>
    (Normal (fetch url init),
     mkWorld (hooks w) ((url, init) :: sent w) (defaultPrevented w)).

(** [await fetch(url, init)]. *)
Definition await_fetch (url : string) (init : RequestInit)
  : Handler (bool * BodyOutcome) :=
  r <- call_fetch url init ;;
  match r with
  | FetchRejects e => throw e
  | Response ok json => ret (ok, json)
  end.

(** [await response.json()]. *)
Definition await_json (json : BodyOutcome) : Handler ApiResponse :=
  match json with
  | JsonRejects e => throw e
  | JsonData data => ret data
  end.

(** The object sent to the pricing engine. *)
Definition requestData (fd : ShippingFormData) : RequestData :=
  mkRequestData
    (parseFloat (length_cm fd))
    (parseFloat (width_cm fd))
    (parseFloat (height_cm fd))
    (parseFloat (weight_kg fd))
    (is_express fd)
    (destination fd).

Definition requestInit (fd : ShippingFormData) : RequestInit :=
  mkRequestInit "POST" [("Content-Type", "application/json")] (requestData fd).

(** The test of the validation loop: [isNaN(value) || value <= 0]. *)
Definition rejected (fd : ShippingFormData) (field : string) : bool :=
  let value := parseFloat (field_text fd field) in
  isNaN value || le_zero value.

(** [handleSubmit], run in the render whose form state is [fd]. *)
Definition handleSubmit (fd : ShippingFormData) : Handler unit :=
  preventDefault ;;
  setError "" ;;
  setResult None ;;
  setLoading true ;;
  for_of numericFields (fun field =>
    if rejected fd field then
      setError (validationMessage field) ;;
      setLoading false ;;
      return_
    else ret tt) ;;
  try_catch_finally
    (response <- await_fetch API_URL (requestInit fd) ;;
     data <- await_json (snd response) ;;
     (if negb (fst response) || negb (success data)
      then throw (ErrorObject (or_else (api_error data) "API request failed"))
      else ret tt) ;;
     setResult (Some data))
    (fun err =>
       let message :=
         match err with
         | ErrorObject m => m
         | NotAnError => "An error occurred while calculating shipping"
         end in
       setError message)
    (setLoading false).

(** The [try] statement of [handleSubmit] on its own. *)
Definition exchange (fd : ShippingFormData) : Handler unit :=
  try_catch_finally
    (response <- await_fetch API_URL (requestInit fd) ;;
     data <- await_json (snd response) ;;
     (if negb (fst response) || negb (success data)
      then throw (ErrorObject (or_else (api_error data) "API request failed"))
      else ret tt) ;;
     setResult (Some data))
    (fun err =>
       let message :=
         match err with
         | ErrorObject m => m
         | NotAnError => "An error occurred while calculating shipping"
         end in
       setError message)
    (setLoading false).

(** The world in which the network call is made: the initial updates
    of [handleSubmit] are done, nothing is sent yet. *)
Definition submitting (w : World) : World :=
  mkWorld (mkState (formData (hooks w)) None true "") (sent w) true.

(** The world a rejected submission ends in. *)
Definition rejected_world (field : string) (w : World) : World :=
  mkWorld (mkState (formData (hooks w)) None false (validationMessage field))
          (sent w) true.

(** What the exchange leaves behind, by the outcome of the call. *)
Definition settled (fd : ShippingFormData) (w : World) (r : option ApiResponse)
    (e : string) : World :=
  mkWorld (mkState (formData (hooks w)) r false e)
          ((API_URL, requestInit fd) :: sent w) true.

End Handlers.

Definition handleReset : Handler unit :=
  setFormData (mkShippingFormData "" "" "" "" false national) ;;
  setResult None ;;
  setError "".

(** *** The rendered tree

    The parts of the JSX that depend on the state: the error banner,
    the submit button and the results card. *)

Inductive PropValue : Type :=
| PStr (s : string)
| PBool (b : bool)
| PNat (n : nat).

Inductive Node : Type :=
| Element (tag : string) (props : list (string * PropValue))
    (children : list Node)
| Text (s : string)
| Num (x : number).

Definition className (c : string) : string * PropValue :=
  ("className", PStr c).

Definition icon (name c : string) : Node := Element name [className c] [].

(** [{v}] for a possibly undefined string. *)
Definition text_child (v : option string) : list Node :=
  match v with
  | Some s => [Text s]
  | None => []
  end.

(** [{v ?? "-"}] for a possibly undefined number. *)
Definition number_or_dash (v : option number) : Node :=
  match v with
  | Some x => Num x
  | None => Text "-"
  end.

(** [{v && node}] for a possibly undefined string [v]. *)
Definition when_truthy (v : option string) (node : Node) : list Node :=
  match v with
  | Some s => if truthy s then [node] else [Text s]
  | None => []
  end.

Fixpoint map_index {A B} (f : A -> nat -> B) (i : nat) (l : list A) : list B :=
  match l with
  | [] => []
  | x :: l' => f x i :: map_index f (S i) l'
  end.

(** [result.package_summary?.dimensions?.[dim]]. *)
Definition dimension (summary : PackageSummary) (dim : string) : option number :=
  match dimensions summary with
  | None => None
  | Some d =>
      if dim =? "length_cm" then dim_length_cm d
      else if dim =? "width_cm" then dim_width_cm d
      else if dim =? "height_cm" then dim_height_cm d
      else None
  end.

(** [{error && <Alert variant="danger" ...>}]. *)
Definition errorBanner (st : State) : list Node :=
  when_truthy (Some (error st))
    (Element "Alert" [("variant", PStr "danger"); ("dismissible", PBool true)]
       [icon "ExclamationTriangle" "me-2"; Text (error st)]).

Definition submitButton (st : State) : Node :=
  Element "Button"
    [("variant", PStr "primary"); ("type", PStr "submit");
     ("disabled", PBool (loading st)); className "flex-grow-1"]
    (if loading st
     then [Element "Spinner"
             [("animation", PStr "border"); ("size", PStr "sm"); className "me-2"]
             [];
           Text "Calculating..."]
     else [Text "Calculate Shipping Cost"]).

(** [result.total_price?.toFixed(2)]. *)
Definition priceText (r : ApiResponse) : option string :=
  option_map (toFixed 2) (total_price r).

Definition alertsHeading : Node :=
  Element "h5" []
    [icon "ExclamationTriangle" "me-2 text-warning"; Text "Shipping Alerts"].

Section Render.

(** The host's case conversions. *)
Variable toLowerCase : string -> string.
Variable toUpperCase : string -> string.

Definition alertItem (alert : string) (index : nat) : Node :=
  let Icon :=
    if includes "heavy" (toLowerCase alert) then "ExclamationTriangle"
    else if includes "package" (toLowerCase alert) then "BoxSeam"
    else if includes "international" (toLowerCase alert) then "GlobeEuropeAfrica"
    else "InfoCircle" in
  let variant :=
    if includes "heavy" (toLowerCase alert) then "warning" else "info" in
  Element "Alert"
    [("key", PNat index); ("variant", PStr variant);
     className "d-flex align-items-center"]
    [icon Icon "me-2"; Text alert].

(** The nested block: the same guard, the same heading, the items. *)
Definition alertsInner (r : ApiResponse) : list Node :=
  if (0 <? List.length (alerts r))%nat then
    [Element "div" [className "mt-4"]
       (alertsHeading :: map_index alertItem 0 (alerts r))]
  else [].

(** The outer block. *)
Definition alertsBlock (r : ApiResponse) : list Node :=
  if (0 <? List.length (alerts r))%nat then
    [Element "div" [className "mt-4"] (alertsHeading :: alertsInner r)]
  else [].

Definition dimensionCell (summary : PackageSummary) (dim : string) : Node :=
  Element "Col" [("key", PStr dim)]
    [Element "div" [className "p-2 border rounded"]
       [Element "div" [className "fw-bold"]
          [number_or_dash (dimension summary dim); Text " "; Text "cm"];
        Element "small" [className "text-muted"]
          [Text (toUpperCase (replace "_cm" "" dim))]]].

Definition summaryBlock (r : ApiResponse) : list Node :=
  match package_summary r with
  | None => []
  | Some summary =>
      [Element "div" [className "mb-4"]
         [Element "h5" [] [Text "Package Summary"];
          Element "Row" [className "text-center"]
            (map (dimensionCell summary) ["length_cm"; "width_cm"; "height_cm"]
             ++ [Element "Col" []
                   [Element "div" [className "p-2 border rounded"]
                      [Element "div" [className "fw-bold"]
                         [number_or_dash (summary_weight_kg summary);
                          Text " kg"];
                       Element "small" [className "text-muted"]
                         [Text "Weight"]]]])]]
  end.

Definition priceHeading (r : ApiResponse) : Node :=
  Element "h2" [className "display-5"]
    (text_child (priceText r) ++ [Text " "] ++ text_child (currency r)).

(** [{result && result.success && <Card ...>}]. *)
Definition resultsCard (st : State) : list Node :=
  match result st with
  | None => []
  | Some r =>
      if success r then
        [Element "Card" [className "shadow-sm border-success"]
           [Element "Card.Body" []
              ([Element "Card.Title" [className "text-success"]
                  [icon "InfoCircle" "me-2"; Text "Shipping Calculation Results"];
                Element "div" [className "text-center mb-4"]
                  [priceHeading r;
                   Element "p" [className "text-muted"]
                     (Text "Estimated delivery: "
                      :: text_child (estimated_delivery r))]]
               ++ summaryBlock r
               ++ alertsBlock r
               ++ when_truthy (calculation_id r)
                    (Element "div" [className "mt-3 text-end"]
                       [Element "small" [className "text-muted"]
                          (icon "Hash" "me-1"
                           :: text_child (calculation_id r))]))]]
      else []
  end.

End Render.

Definition is_text (s : string) (n : Node) : bool :=
  match n with
  | Text t => t =? s
  | _ => false
  end.

(** How many [tag] elements of the tree carry the text [title] as a
    direct child. *)
Fixpoint count_titled (tag title : string) (n : Node) : nat :=
  match n with
  | Element t _ children =>
      (if (t =? tag) && existsb (is_text title) children then 1 else 0)
      + list_sum (map (count_titled tag title) children)
  | _ => 0
  end.

(** How many [tag] elements the tree has. *)
Fixpoint count_tag (tag : string) (n : Node) : nat :=
  match n with
  | Element t _ children =>
      (if t =? tag then 1 else 0) + list_sum (map (count_tag tag) children)
  | _ => 0
  end.

Definition count_in (count : Node -> nat) (l : list Node) : nat :=
  list_sum (map count l).

(** *** Input events and the page as a whole *)

(** The attributes of [e.target] that [handleInputChange] reads. *)
Record InputTarget : Type := mkInputTarget {
  name : string;
  value : string;
  type : string;
  checked : bool
}.

(** What a field of the form data can hold. *)
Inductive FieldValue : Type :=
| StringValue (s : string)
| BooleanValue (b : bool).

(** [type === "checkbox" ? checked : value]. *)
Definition changedValue (t : InputTarget) : FieldValue :=
  if type t =? "checkbox" then BooleanValue (checked t)
  else StringValue (value t).

(** [String(v)] for a field value. *)
Definition valueText (v : FieldValue) : string :=
  match v with
  | StringValue s => s
  | BooleanValue b => if b then "true" else "false"
  end.

(** [{ ...prev, [key]: v }], when the object is again a
    [ShippingFormData]: a string under one of the four text keys, one of
    the two destinations under [destination], a boolean under
    [is_express].  Any other update leaves that type and has no image
    here. *)
Definition assign (prev : ShippingFormData) (key : string) (v : FieldValue)
  : option ShippingFormData :=
  match v with
  | StringValue s =>
      if key =? "length_cm" then
        Some (mkShippingFormData s (width_cm prev) (height_cm prev)
                (weight_kg prev) (is_express prev) (destination prev))
      else if key =? "width_cm" then
        Some (mkShippingFormData (length_cm prev) s (height_cm prev)
                (weight_kg prev) (is_express prev) (destination prev))
      else if key =? "height_cm" then
        Some (mkShippingFormData (length_cm prev) (width_cm prev) s
                (weight_kg prev) (is_express prev) (destination prev))
      else if key =? "weight_kg" then
        Some (mkShippingFormData (length_cm prev) (width_cm prev)
                (height_cm prev) s (is_express prev) (destination prev))
      else if key =? "destination" then
        if s =? "national" then
          Some (mkShippingFormData (length_cm prev) (width_cm prev)
                  (height_cm prev) (weight_kg prev) (is_express prev) national)
        else if s =? "international" then
          Some (mkShippingFormData (length_cm prev) (width_cm prev)
                  (height_cm prev) (weight_kg prev) (is_express prev)
                  international)
        else None
      else None
  | BooleanValue b =>
      if key =? "is_express" then
        Some (mkShippingFormData (length_cm prev) (width_cm prev)
                (height_cm prev) (weight_kg prev) b (destination prev))
      else None
  end.

(** [handleInputChange]: the functional update of the form data with
    the changed input.  [None] stands for an update that leaves the type
    [ShippingFormData]. *)
Definition handleInputChange (t : InputTarget) (w : World)
  : option (Completion unit * World) :=
  match assign (formData (hooks w)) (name t) (changedValue t) with
  | Some next => Some (setFormData next w)
  | None => None
  end.

(** The inputs the form wires to [handleInputChange]: the number inputs
    of the four quantities, the two destination radios and the express
    switch, which is a checkbox. *)
Definition isFormInput (t : InputTarget) : bool :=
  (type t =? "number") && existsb (String.eqb (name t)) numericFields
  || (type t =? "radio") && (name t =? "destination")
     && ((value t =? "national") || (value t =? "international"))
  || (type t =? "checkbox") && (name t =? "is_express").

(** The keys of [ShippingFormData]. *)
Definition formKeys : list string :=
  ["length_cm"; "width_cm"; "height_cm"; "weight_kg"; "is_express";
   "destination"].

(** [onClose] of the error banner. *)
Definition closeError : Handler unit := setError "".

(** [err instanceof Error ? err.message : "..."], the text the [catch]
    block of [handleSubmit] shows. *)
Definition caughtMessage (err : thrown) : string :=
  match err with
  | ErrorObject m => m
  | NotAnError => "An error occurred while calculating shipping"
  end.

(** A value the validation loop lets through: a positive number, which
    may be [Infinity]. *)
Definition accepted (x : number) : Prop :=
  match x with
  | NaN => False
  | Infinity negative => negative = false
  | Finite q => (0 < q)%Q
  end.

Section Page.

Variable parseFloat : string -> number.

(** The statements of [handleSubmit] before its [try]. *)
Definition beforeTry (fd : ShippingFormData) : Handler unit :=
  preventDefault ;;
  setError "" ;;
  setResult None ;;
  setLoading true ;;
  for_of numericFields (fun field =>
    if rejected parseFloat fd field then
      setError (validationMessage field) ;;
      setLoading false ;;
      return_
    else ret tt).

(** [onSubmit] of the form: [handleSubmit] of the current render, which
    closes over the current form data; [outcome] is what the network
    call yields this time. *)
Definition submitForm (outcome : FetchOutcome) : Handler unit :=
  fun w => handleSubmit parseFloat (fun _ _ => outcome) (formData (hooks w)) w.

(** What the user can do on the page. *)
Inductive Action : Type :=
| Change (t : InputTarget)
| Submit (outcome : FetchOutcome)
| Reset
| CloseError.

(** One action, handled to completion. *)
Definition act (a : Action) (w : World) : option World :=
  match a with
  | Change t => option_map snd (handleInputChange t w)
  | Submit outcome => Some (snd (submitForm outcome w))
  | Reset => Some (snd (handleReset w))
  | CloseError => Some (snd (closeError w))
  end.

Fixpoint run (actions : list Action) (w : World) : option World :=
  match actions with
  | [] => Some w
  | a :: rest =>
      match act a w with
      | Some w' => run rest w'
      | None => None
      end
  end.

End Page.

(** The [value] of a destination radio. *)
Definition radioValue (d : Destination) : string :=
  match d with
  | national => "national"
  | international => "international"
  end.

(** Filling in the whole form: a change of each of the six inputs. *)
Definition fillIn (a b c d : string) (express : bool) (dst : Destination)
  : list Action :=
  [Change (mkInputTarget "length_cm" a "number" false);
   Change (mkInputTarget "width_cm" b "number" false);
   Change (mkInputTarget "height_cm" c "number" false);
   Change (mkInputTarget "weight_kg" d "number" false);
   Change (mkInputTarget "is_express" "on" "checkbox" express);
   Change (mkInputTarget "destination" (radioValue dst) "radio" true)].

(** A change of one of the form's inputs. *)
Definition isInputChange (a : Action) : bool :=
  match a with
  | Change t => isFormInput t
  | _ => false
  end.

(** The name of the input an action changes. *)
Definition changedName (a : Action) : string :=
  match a with
  | Change t => name t
  | _ => ""
  end.

(** After a run of actions the page is at rest: nothing is loading, and
    a result, if there is one, is a successful response shown without an
    error. *)
Definition atRest (st : State) : Prop :=
  loading st = false /\
  forall r, result st = Some r -> success r = true /\ error st = "".

(** The texts that are direct children of an element. *)
Definition texts (n : Node) : list string :=
  match n with
  | Element _ _ children =>
      flat_map (fun c => match c with Text s => [s] | _ => [] end) children
  | _ => []
  end.

(** The [key] of an element of a list. *)
Definition keyOf (n : Node) : option PropValue :=
  match n with
  | Element _ props _ =>
      option_map snd (find (fun p => fst p =? "key") props)
  | _ => None
  end.



End CalculatePage.

(** ** The pricing engine

    The engine is the calculate endpoint of the Python backend, whose
    code is not among the sources; every definition of this module is
    modelled from the specification (sections 3, 4.1 and 6), with real
    quantities as exact rationals. *)

Module PricingEngine.
Import CalculatePage.

Local Open Scope Q_scope.

(** Modelled from the spec: the ShippingRequest of the engine (the
    backend's request type is missing). *)
Record ShippingRequest : Type := mkShippingRequest {
  length_cm : Q;
  width_cm : Q;
  height_cm : Q;
  weight_kg : Q;
  destination : Destination;
  is_express : bool
}.

(** Modelled from the spec: the invariant of a valid ShippingRequest,
    all dimension and weight fields strictly positive (the backend's
    validation is missing). *)
Definition valid_request (r : ShippingRequest) : Prop :=
  0 < length_cm r /\ 0 < width_cm r /\ 0 < height_cm r /\ 0 < weight_kg r.

(** Modelled from the spec: the named pricing constants of the engine
    (the backend's configuration is missing). *)
Record PricingConfig : Type := mkPricingConfig {
  rate_per_kg : Q;
  rate_per_volumetric_unit : Q;
  national_multiplier : Q;
  international_multiplier : Q;
  express_multiplier : Q;
  oversized_threshold_cm : Q;
  bulky_volume_threshold : Q
}.

(** Modelled from the spec: what the spec asks of the constants (the
    backend's configuration is missing): rates are not negative, the
    international multiplier is higher than the national one, express is
    a surcharge. *)
Definition valid_config (c : PricingConfig) : Prop :=
  0 <= rate_per_kg c /\ 0 <= rate_per_volumetric_unit c /\
  0 <= national_multiplier c /\
  national_multiplier c < international_multiplier c /\
  1 <= express_multiplier c.

(** Modelled from the spec: the heavy-package threshold of the alert
    rules, 20 kg (the backend's constant is missing). *)
Definition HEAVY_WEIGHT_KG : Q := 20.

(** Modelled from the spec: one set of constants for the engine (the
    backend's values are missing); with them the sample request of the
    README costs 85.50. *)
Definition example_config : PricingConfig :=
  mkPricingConfig (19 # 10) (19 # 50000) 1 (3 # 2) (6 # 5) 120 100000.

(** Modelled from the spec: the larger of two charges (the backend's
    pricing code is missing). *)
Definition larger (a b : Q) : Q := if Qle_bool a b then b else a.

(** Modelled from the spec: step 1 of the algorithm, the volume in
    cubic centimeters (the backend's pricing code is missing). *)
Definition volume (r : ShippingRequest) : Q :=
  length_cm r * width_cm r * height_cm r.

(** Modelled from the spec: step 2, the base price as the larger of
    the weight-based and the volume-based charge (the backend's pricing
    code is missing). *)
Definition base_price (c : PricingConfig) (r : ShippingRequest) : Q :=
  larger (rate_per_kg c * weight_kg r)
         (rate_per_volumetric_unit c * volume r).

(** Modelled from the spec: step 3, the destination multiplier (the
    backend's pricing code is missing). *)
Definition destination_multiplier (c : PricingConfig) (d : Destination) : Q :=
  match d with
  | national => national_multiplier c
  | international => international_multiplier c
  end.

(** Modelled from the spec: step 4, the express surcharge as a factor
    (the backend's pricing code is missing). *)
Definition express_factor (c : PricingConfig) (express : bool) : Q :=
  if express then express_multiplier c else 1.

(** Modelled from the spec: the price before rounding (the backend's
    pricing code is missing). *)
Definition exact_price (c : PricingConfig) (r : ShippingRequest) : Q :=
  base_price c r * destination_multiplier c (destination r)
  * express_factor c (is_express r).

(** Modelled from the spec: step 5, rounding to 2 decimal places, half
    up (the backend's rounding is missing). *)
Definition round2 (x : Q) : Q :=
  inject_Z (Qfloor (x * 100 + (1 # 2))) / 100.

(** Modelled from the spec: the total price of a request (the backend's
    pricing code is missing). *)
Definition total_price (c : PricingConfig) (r : ShippingRequest) : Q :=
  round2 (exact_price c r).

(** Modelled from the spec: the four advisory alerts (the backend's
    alert texts are missing). *)
Inductive Alert : Type :=
| HeavyPackage
| OversizedDimension
| BulkyVolume
| CustomsDocumentation.

(** Modelled from the spec: the human-readable text of an alert (the
    backend's alert texts are missing). *)
Definition alert_text (a : Alert) : string :=
  match a with
  | HeavyPackage => "heavy package"
  | OversizedDimension => "oversized dimension"
  | BulkyVolume => "bulky volume"
  | CustomsDocumentation => "customs documentation"
  end.

(** Modelled from the spec: [a > b] on the engine's quantities (the
    backend's comparisons are missing). *)
Definition exceeds (a b : Q) : bool := negb (Qle_bool a b).

(** Modelled from the spec: one alert rule, zero or one alert (the
    backend's alert code is missing). *)
Definition rule (fires : bool) (a : Alert) : list Alert :=
  if fires then [a] else [].

(** Modelled from the spec: step 6, the alert rules in their fixed
    priority order (the backend's alert code is missing). *)
Definition alert_rules (c : PricingConfig) (r : ShippingRequest) : list Alert :=
  rule (exceeds (weight_kg r) HEAVY_WEIGHT_KG) HeavyPackage
  ++ rule (exceeds (length_cm r) (oversized_threshold_cm c)
           || exceeds (width_cm r) (oversized_threshold_cm c)
           || exceeds (height_cm r) (oversized_threshold_cm c))
          OversizedDimension
  ++ rule (exceeds (volume r) (bulky_volume_threshold c)) BulkyVolume
  ++ rule (match destination r with
           | international => true
           | national => false
           end) CustomsDocumentation.

(** Modelled from the spec: step 7, the delivery estimate keyed by
    (destination, is_express) (the backend's lookup table is missing). *)
Definition delivery_lookup (d : Destination) (express : bool) : string :=
  match d, express with
  | national, false => "5-7 business days"
  | national, true => "2-3 business days"
  | international, false => "7-14 business days"
  | international, true => "3-5 business days"
  end.

(** Modelled from the spec: the four delivery texts (the backend's
    lookup table is missing). *)
Definition delivery_texts : list string :=
  ["5-7 business days"; "2-3 business days";
   "7-14 business days"; "3-5 business days"].

(** Modelled from the spec: the echo of the input in the result (the
    backend's response type is missing). *)
Record Summary : Type := mkSummary {
  summary_length_cm : Q;
  summary_width_cm : Q;
  summary_height_cm : Q;
  summary_weight_kg : Q
}.

(** Modelled from the spec: the PricingResult (the backend's response
    type is missing). *)
Record PricingResult : Type := mkPricingResult {
  result_total_price : Q;
  result_currency : string;
  result_alerts : list string;
  result_estimated_delivery : string;
  result_package_summary : Summary
}.

(** Modelled from the spec: the engine, steps 1 to 8 (the backend's
    calculate function is missing). *)
Definition calculate (c : PricingConfig) (r : ShippingRequest) : PricingResult :=
  mkPricingResult
    (total_price c r)
    "EUR"
    (map alert_text (alert_rules c r))
    (delivery_lookup (destination r) (is_express r))
    (mkSummary (length_cm r) (width_cm r) (height_cm r) (weight_kg r)).

(** Modelled from the spec: the successful output object of section 6,
    as the client reads it (the backend's endpoint is missing). *)
Definition response (p : PricingResult) : ApiResponse :=
  mkApiResponse
    true None
    (Some (JS.Finite (result_total_price p)))
    (Some (result_currency p))
    None
    (result_alerts p)
    (Some (result_estimated_delivery p))
    None
    (Some (mkPackageSummary
             (Some (mkDimensions
                      (Some (JS.Finite (summary_length_cm (result_package_summary p))))
                      (Some (JS.Finite (summary_width_cm (result_package_summary p))))
                      (Some (JS.Finite (summary_height_cm (result_package_summary p))))))
             (Some (JS.Finite (summary_weight_kg (result_package_summary p))))))
    None.

(** The request [r] with another weight, everything else unchanged. *)
Definition with_weight_kg (r : ShippingRequest) (kg : Q) : ShippingRequest :=
  mkShippingRequest (length_cm r) (width_cm r) (height_cm r) kg
    (destination r) (is_express r).

(** The client shows the price of a response with exactly two decimal
    digits. *)
Definition displays_two_decimals (a : ApiResponse) : Prop :=
  exists s, priceText a = Some s /\ JS.two_decimal_digits s.

(** A price is a whole number of hundredths. *)
Definition whole_cents (p : Q) : Prop :=
  exists cents : Z, p == inject_Z cents / 100.

End PricingEngine.

(** ** The endpoint and sample inputs *)

Module Backend.
Import CalculatePage PricingEngine.

(** Modelled from the spec: a field the validation boundary lets
    through, a positive number (the backend's validation is missing). *)
Definition positive (x : JS.number) : option Q :=
  match x with
  | JS.Finite q => if exceeds q 0 then Some q else None
  | _ => None
  end.

(** Modelled from the spec: the output object of a refused request,
    [success] false with an error text (the backend's endpoint is
    missing). *)
Definition failure (message : string) : ApiResponse :=
  mkApiResponse false None None None None [] None None None (Some message).

(** Modelled from the spec: the calculate endpoint, the validation
    boundary in front of the engine (the backend's endpoint is missing):
    the engine runs only on a request whose four quantities are
    positive numbers. *)
Definition calculate_endpoint (c : PricingConfig)
    (url : string) (init : RequestInit) : FetchOutcome :=
  let d := body init in
  match positive (req_length_cm d), positive (req_width_cm d),
        positive (req_height_cm d), positive (req_weight_kg d) with
  | Some l, Some w, Some h, Some kg =>
      Response true
        (JsonData
           (response
              (calculate c
                 (mkShippingRequest l w h kg
                    (req_destination d) (req_is_express d)))))
  | _, _, _, _ =>
      Response false
        (JsonData (failure "Dimensions and weight must be positive numbers"))
  end.

(** The page before any interaction. *)
Definition idle : World := mkWorld initialState [] false.

(** The sample request of the README, as typed into the form. *)
Definition sample_form : ShippingFormData :=
  mkShippingFormData "30" "20" "15" "25" true international.

(** A form whose width is not a number and whose height is zero. *)
Definition invalid_form : ShippingFormData :=
  mkShippingFormData "30" "abc" "0" "25" true international.

Definition sample_request : ShippingRequest :=
  mkShippingRequest 30 20 15 25 international true.

(** A valid request whose price reaches 10^21. *)
Definition huge_request : ShippingRequest :=
  mkShippingRequest 1 1 1 (inject_Z (10 ^ 22) / 19) national false.

(** The answer of the endpoint to the sample request. *)
Definition served : ApiResponse :=
  response (calculate example_config sample_request).

(** The page after that answer, which carries two alerts. *)
Definition answered : State := mkState sample_form (Some served) false "".

(** The express switch being turned on. *)
Definition switchOn : InputTarget :=
  mkInputTarget "is_express" "on" "checkbox" true.

(** The weight being typed. *)
Definition weightTyped : InputTarget :=
  mkInputTarget "weight_kg" "25" "number" false.

(** An error page in place of the JSON body. *)
Definition brokenBody : FetchOutcome :=
  Response false
    (JsonRejects (JS.ErrorObject "Unexpected token < in JSON at position 0")).

(** The endpoint refusing a request. *)
Definition refusal : FetchOutcome :=
  Response false
    (JsonData (failure "Dimensions and weight must be positive numbers")).

(** A session on the page: the form is filled in and submitted, the
    answer arrives, a second submission is refused, the banner is closed
    and the form is reset. *)
Definition session : list Action :=
  fillIn "30" "20" "15" "25" true international
  ++ [Submit (Response true (JsonData served)); Submit refusal;
      CloseError; Reset].

End Backend.

(** * Properties of the page *)

Import JS CalculatePage.

Section HandlerFacts.

Variable parseFloat : string -> number.
Variable fetch : string -> RequestInit -> FetchOutcome.

Ltac split_fields H :=
  cbn [forallb existsb find numericFields] in H;
  destruct (rejected parseFloat _ "length_cm") eqn:?Hlength;
  [ | destruct (rejected parseFloat _ "width_cm") eqn:?Hwidth;
      [ | destruct (rejected parseFloat _ "height_cm") eqn:?Hheight;
          [ | destruct (rejected parseFloat _ "weight_kg") eqn:?Hweight ] ] ];
  cbn in H; try discriminate H.

Lemma handleSubmit_loop_passes (fd : ShippingFormData) (w : World) :
  forallb (fun field => negb (rejected parseFloat fd field)) numericFields = true ->
  handleSubmit parseFloat fetch fd w
  = exchange parseFloat fetch fd (submitting w).
Proof.
  intros H. split_fields H.
  unfold handleSubmit, exchange.
  cbn [for_of numericFields].
  unfold bind at 1. cbn.
  rewrite Hlength, Hwidth, Hheight, Hweight. reflexivity.
Qed.

Lemma handleSubmit_loop_rejects (fd : ShippingFormData) (w : World) (field : string) :
  find (rejected parseFloat fd) numericFields = Some field ->
  handleSubmit parseFloat fetch fd w = (Returns, rejected_world field w).
Proof.
  intros H. split_fields H;
    injection H as <-;
    unfold handleSubmit; cbn [for_of numericFields];
    unfold bind at 1; cbn;
    rewrite ?Hlength, ?Hwidth, ?Hheight, ?Hweight; reflexivity.
Qed.

Lemma loop_passes_or_rejects (fd : ShippingFormData) :
  forallb (fun field => negb (rejected parseFloat fd field)) numericFields = true
  \/ exists field, find (rejected parseFloat fd) numericFields = Some field.
Proof.
  cbn [forallb find numericFields].
  destruct (rejected parseFloat fd "length_cm"); [right; eauto |].
  destruct (rejected parseFloat fd "width_cm"); [right; eauto |].
  destruct (rejected parseFloat fd "height_cm"); [right; eauto |].
  destruct (rejected parseFloat fd "weight_kg"); [right; eauto |].
  left; reflexivity.
Qed.

Lemma some_rejected_found (fd : ShippingFormData) :
  existsb (rejected parseFloat fd) numericFields = true ->
  exists field, find (rejected parseFloat fd) numericFields = Some field.
Proof.
  cbn [existsb find numericFields].
  destruct (rejected parseFloat fd "length_cm"); [eauto |].
  destruct (rejected parseFloat fd "width_cm"); [eauto |].
  destruct (rejected parseFloat fd "height_cm"); [eauto |].
  destruct (rejected parseFloat fd "weight_kg"); [eauto |].
  discriminate.
Qed.

Lemma exchange_response (fd : ShippingFormData) (w : World)
    (ok : bool) (data : ApiResponse) :
  fetch API_URL (requestInit parseFloat fd) = Response ok (JsonData data) ->
  exchange parseFloat fetch fd (submitting w) =
  if ok && success data
  then (Normal tt, settled parseFloat fd w (Some data) "")
  else (Normal tt,
        settled parseFloat fd w None
          (or_else (api_error data) "API request failed")).
Proof.
  intros H. unfold exchange, try_catch_finally, await_fetch, call_fetch, bind.
  cbn. rewrite H. cbn.
  destruct ok, (success data); reflexivity.
Qed.

(** Whatever the [try] and [catch] blocks do, a [finally] block that
    is [setLoading(false)] leaves [loading] false. *)
Lemma finally_clears_loading {A} (body : Handler A)
    (handler : thrown -> Handler A) (w : World) :
  loading (hooks (snd (try_catch_finally body handler (setLoading false) w)))
  = false.
Proof.
  unfold try_catch_finally.
  destruct (body w) as [[a | e |] w1]; cbn; [reflexivity | | reflexivity].
  destruct (handler e w1) as [c w2]. reflexivity.
Qed.

Lemma exchange_clears_loading (fd : ShippingFormData) (w : World) :
  fst (exchange parseFloat fetch fd w) = Normal tt /\
  loading (hooks (snd (exchange parseFloat fetch fd w))) = false.
Proof.
  split; [| apply finally_clears_loading].
  unfold exchange, try_catch_finally, await_fetch, call_fetch, bind. cbn.
  destruct (fetch API_URL (requestInit parseFloat fd)) as [e | ok [e | data]];
    cbn; try reflexivity.
  destruct (negb ok || negb (success data)); reflexivity.
Qed.

Lemma find_is_first {A} (p : A -> bool) (l : list A) (x : A) :
  find p l = Some x ->
  exists before after,
    l = (before ++ x :: after)%list /\
    forallb (fun y => negb (p y)) before = true /\
    p x = true.
Proof.
  induction l as [| y l IH]; cbn; [discriminate |].
  destruct (p y) eqn:Hy.
  - intros [= <-]. exists [], l. auto.
  - intros H. destruct (IH H) as (before & after & -> & Hb & Hx).
    exists (y :: before), after. cbn. rewrite Hy, Hb. auto.
Qed.

(** C1: when at least one of the four numeric fields parses to NaN or
    to a value that is not positive, [handleSubmit] returns early with
    the error message of the first such field in the order length_cm,
    width_cm, height_cm, weight_kg; no request is sent and the result
    stays unset. *)
Theorem handleSubmit_rejects_invalid_field (fd : ShippingFormData) (w : World) :
  existsb (rejected parseFloat fd) numericFields = true ->
  exists before field after,
    ["length_cm"; "width_cm"; "height_cm"; "weight_kg"]
      = (before ++ field :: after)%list /\
    forallb (fun f => negb (rejected parseFloat fd f)) before = true /\
    rejected parseFloat fd field = true /\
    fst (handleSubmit parseFloat fetch fd w) = Returns /\
    let w' := snd (handleSubmit parseFloat fetch fd w) in
    error (hooks w') =
      "Please enter a valid positive number for " ++ replace "_" " " field /\
    sent w' = sent w /\
    result (hooks w') = None.
Proof.
  intros H. destruct (some_rejected_found fd H) as [field Hfield].
  destruct (find_is_first _ _ _ Hfield) as (before & after & Hsplit & Hb & Hx).
  exists before, field, after.
  split; [exact Hsplit |]. split; [exact Hb |]. split; [exact Hx |].
  rewrite (handleSubmit_loop_rejects fd w field Hfield).
  cbn. repeat split; reflexivity.
Qed.

(** C9, as the code has it: when the call yields a response whose
    body parses, the result is set exactly when the response is ok and
    the body's [success] is true; otherwise the error becomes the body's
    error text, or "API request failed" when that is missing or empty,
    and the result stays null.  When [response.json()] rejects, the
    error is the message of what was thrown instead.  In no case but
    the successful one is a results card rendered. *)
Theorem handleSubmit_result_by_response
    (fd : ShippingFormData) (w : World) (ok : bool) (json : BodyOutcome) :
  forallb (fun field => negb (rejected parseFloat fd field)) numericFields = true ->
  fetch API_URL (requestInit parseFloat fd) = Response ok json ->
  let w' := snd (handleSubmit parseFloat fetch fd w) in
  (result (hooks w') <> None <->
   ok = true /\ exists data, json = JsonData data /\ success data = true) /\
  (forall data, json = JsonData data ->
     ok = true /\ success data = true ->
     result (hooks w') = Some data /\ error (hooks w') = "") /\
  (forall data, json = JsonData data ->
     ~ (ok = true /\ success data = true) ->
     result (hooks w') = None /\
     (forall s, api_error data = Some s -> s <> "" -> error (hooks w') = s) /\
     (api_error data = None \/ api_error data = Some "" ->
      error (hooks w') = "API request failed") /\
     forall toLowerCase toUpperCase,
       resultsCard toLowerCase toUpperCase (hooks w') = []) /\
  (forall e, json = JsonRejects e ->
     result (hooks w') = None /\
     error (hooks w') =
       match e with
       | ErrorObject m => m
       | NotAnError => "An error occurred while calculating shipping"
       end /\
     forall toLowerCase toUpperCase,
       resultsCard toLowerCase toUpperCase (hooks w') = []).
Proof.
  intros Hpass Hfetch. cbv zeta.
  rewrite (handleSubmit_loop_passes fd w Hpass).
  destruct json as [e | data].
  - unfold exchange, try_catch_finally, await_fetch, call_fetch, bind. cbn.
    rewrite Hfetch. cbn.
    split; [| split; [| split]].
    + split; [intros H; exfalso; apply H; reflexivity |].
      intros (_ & data & Hd & _). discriminate Hd.
    + intros data Hd. discriminate Hd.
    + intros data Hd. discriminate Hd.
    + intros e' [= <-]. destruct e; repeat split; reflexivity.
  - rewrite (exchange_response fd w ok data Hfetch).
    split; [| split; [| split]].
    + destruct ok, (success data) eqn:Hs; cbn; split.
      all: try (intros H; exfalso; apply H; reflexivity).
      all: try (intros (Hok & d & Hd & Hsd); injection Hd as <-; congruence).
      all: intros _; split; [reflexivity | exists data; auto].
    + intros d [= <-] [-> ->]. cbn. split; reflexivity.
    + intros d [= <-] Hnot.
      assert (Hb : ok && success data = false).
      { destruct ok, (success data); try reflexivity.
        exfalso. apply Hnot. split; reflexivity. }
      rewrite Hb. cbn [snd settled hooks result error].
      split; [reflexivity |]. split; [| split].
      * intros s Hs Hne. rewrite Hs. destruct s; [contradiction | reflexivity].
      * intros [Hs | Hs]; rewrite Hs; reflexivity.
      * reflexivity.
    + intros e He. discriminate He.
Qed.

(** C10: every run of [handleSubmit] ends, by return or by reaching the
    end and never by an uncaught exception, with [loading] false, so
    the submit button rendered afterwards is enabled. *)
Theorem handleSubmit_ends_not_loading (fd : ShippingFormData) (w : World) :
  let run := handleSubmit parseFloat fetch fd w in
  (fst run = Normal tt \/ fst run = Returns) /\
  loading (hooks (snd run)) = false /\
  submitButton (hooks (snd run)) =
    Element "Button"
      [("variant", PStr "primary"); ("type", PStr "submit");
       ("disabled", PBool false); className "flex-grow-1"]
      [Text "Calculate Shipping Cost"].
Proof.
  cbv zeta.
  destruct (loop_passes_or_rejects fd) as [Hpass | [field Hfield]].
  - rewrite (handleSubmit_loop_passes fd w Hpass).
    destruct (exchange_clears_loading fd (submitting w)) as [Hc Hl].
    unfold submitButton. rewrite Hc, Hl. auto.
  - rewrite (handleSubmit_loop_rejects fd w field Hfield). cbn. auto.
Qed.

End HandlerFacts.

(** C8: [handleReset] puts the form back to its initial value and
    clears the result and the error, whatever the state was. *)
Theorem handleReset_restores_initial (w : World) :
  let w' := snd (handleReset w) in
  formData (hooks w') = mkShippingFormData "" "" "" "" false national /\
  formData (hooks w') = formData initialState /\
  result (hooks w') = None /\
  error (hooks w') = "".
Proof.
  cbn. repeat split; reflexivity.
Qed.

Section RenderFacts.

Variable toLowerCase : string -> string.
Variable toUpperCase : string -> string.

Lemma count_in_app (count : Node -> nat) (l1 l2 : list Node) :
  count_in count (l1 ++ l2) = (count_in count l1 + count_in count l2)%nat.
Proof.
  unfold count_in. rewrite map_app, list_sum_app. reflexivity.
Qed.

Lemma count_in_cons (count : Node -> nat) (n : Node) (l : list Node) :
  count_in count (n :: l) = (count n + count_in count l)%nat.
Proof. reflexivity. Qed.

Lemma alert_items_have_no_heading (l : list string) (i : nat) :
  count_in (count_titled "h5" "Shipping Alerts")
    (map_index (alertItem toLowerCase) i l) = 0%nat.
Proof.
  revert i. induction l as [| alert l IH]; intros i; [reflexivity |].
  cbn [map_index]. rewrite count_in_cons, IH.
  unfold alertItem.
  destruct (includes "heavy" (toLowerCase alert));
    [| destruct (includes "package" (toLowerCase alert));
       [| destruct (includes "international" (toLowerCase alert))]];
    reflexivity.
Qed.

Lemma alert_items_counted (l : list string) (i : nat) :
  count_in (count_tag "Alert") (map_index (alertItem toLowerCase) i l)
  = List.length l.
Proof.
  revert i. induction l as [| alert l IH]; intros i; [reflexivity |].
  cbn [map_index List.length]. rewrite count_in_cons, IH.
  unfold alertItem.
  destruct (includes "heavy" (toLowerCase alert));
    [| destruct (includes "package" (toLowerCase alert));
       [| destruct (includes "international" (toLowerCase alert))]];
    reflexivity.
Qed.

Lemma summary_block_has_no_alerts (r : ApiResponse) :
  count_in (count_titled "h5" "Shipping Alerts") (summaryBlock toUpperCase r) = 0%nat
  /\ count_in (count_tag "Alert") (summaryBlock toUpperCase r) = 0%nat.
Proof.
  unfold summaryBlock. destruct (package_summary r) as [summary |]; [| split; reflexivity].
  split; cbn; unfold number_or_dash;
    destruct (dimension summary "length_cm"), (dimension summary "width_cm"),
      (dimension summary "height_cm"), (summary_weight_kg summary); reflexivity.
Qed.

Lemma alerts_block_shape (r : ApiResponse) :
  alerts r <> [] ->
  alertsBlock toLowerCase r =
    [Element "div" [className "mt-4"]
       [alertsHeading;
        Element "div" [className "mt-4"]
          (alertsHeading :: map_index (alertItem toLowerCase) 0 (alerts r))]].
Proof.
  intros H. unfold alertsBlock, alertsInner.
  destruct (alerts r); [contradiction | reflexivity].
Qed.

Lemma alerts_block_counts (r : ApiResponse) :
  alerts r <> [] ->
  count_in (count_titled "h5" "Shipping Alerts") (alertsBlock toLowerCase r) = 2%nat
  /\ count_in (count_tag "Alert") (alertsBlock toLowerCase r)
     = List.length (alerts r).
Proof.
  intros H. rewrite (alerts_block_shape r H).
  pose proof (alert_items_have_no_heading (alerts r) 0) as Hh.
  pose proof (alert_items_counted (alerts r) 0) as Ha.
  unfold count_in, list_sum in *. cbn.
  rewrite Hh, Ha. split; lia.
Qed.

(** C2, as the code has it: for every successful result with at least
    one alert, the results card has two "Shipping Alerts" headings: the
    alerts block holds the heading and, nested in it under the same
    guard, a second block with the heading again.  The list of alerts
    is rendered once, in the nested block, one item per alert.  Without
    alerts there is no heading. *)
Theorem results_card_repeats_alerts_heading (st : State) (r : ApiResponse) :
  result st = Some r ->
  success r = true ->
  (alerts r <> [] ->
     count_in (count_titled "h5" "Shipping Alerts")
       (resultsCard toLowerCase toUpperCase st) = 2%nat /\
     alertsBlock toLowerCase r =
       [Element "div" [className "mt-4"]
          [alertsHeading;
           Element "div" [className "mt-4"]
             (alertsHeading
              :: map_index (alertItem toLowerCase) 0 (alerts r))]] /\
     count_in (count_tag "Alert") (resultsCard toLowerCase toUpperCase st)
       = List.length (alerts r)) /\
  (alerts r = [] ->
     count_in (count_titled "h5" "Shipping Alerts")
       (resultsCard toLowerCase toUpperCase st) = 0%nat).
Proof.
  intros Hres Hok.
  assert (Hcard : forall count : Node -> nat,
             (forall s, count (Text s) = 0%nat) ->
             (forall t p l, t <> "h5" -> t <> "Alert" ->
                count (Element t p l) = count_in count l) ->
             count_in count (resultsCard toLowerCase toUpperCase st)
             = (count_in count (summaryBlock toUpperCase r)
                + count_in count (alertsBlock toLowerCase r))%nat).
  { intros count Htext Helem.
    unfold resultsCard. rewrite Hres, Hok.
    unfold priceHeading, icon, text_child, when_truthy.
    destruct (priceText r), (currency r), (estimated_delivery r),
      (calculation_id r) as [id |]; try destruct (truthy id);
      repeat (rewrite count_in_cons || rewrite count_in_app
              || rewrite Htext || (rewrite Helem by discriminate)
              || change (count_in count []) with 0%nat);
      lia. }
  destruct (summary_block_has_no_alerts r) as [Hs1 Hs2].
  split.
  - intros Hne. destruct (alerts_block_counts r Hne) as [Hb1 Hb2].
    split; [| split].
    + rewrite Hcard, Hs1, Hb1; [reflexivity | reflexivity |].
      intros t p l Ht _. cbn [count_titled].
      destruct (String.eqb_spec t "h5"); [contradiction | reflexivity].
    + apply alerts_block_shape, Hne.
    + rewrite Hcard, Hs2, Hb2; [reflexivity | reflexivity |].
      intros t p l _ Ht. cbn [count_tag].
      destruct (String.eqb_spec t "Alert"); [contradiction | reflexivity].
  - intros Hnil. rewrite Hcard, Hs1; [| reflexivity |].
    + unfold alertsBlock. rewrite Hnil. reflexivity.
    + intros t p l Ht _. cbn [count_titled].
      destruct (String.eqb_spec t "h5"); [contradiction | reflexivity].
Qed.

End RenderFacts.

(** * Properties of the pricing engine *)

Section EngineFacts.

Import PricingEngine.
Local Open Scope Q_scope.

Lemma exceeds_iff (a b : Q) : exceeds a b = true <-> b < a.
Proof.
  unfold exceeds. rewrite negb_true_iff.
  destruct (Qle_bool a b) eqn:E.
  - apply Qle_bool_iff in E. split; [discriminate | intros H; exfalso; lra].
  - split; [intros _ | reflexivity].
    apply Qnot_le_lt. intros H. apply Qle_bool_iff in H. congruence.
Qed.

Lemma larger_mono (a b a' b' : Q) :
  a <= a' -> b <= b' -> larger a b <= larger a' b'.
Proof.
  intros Ha Hb. unfold larger.
  destruct (Qle_bool a b) eqn:E; destruct (Qle_bool a' b') eqn:E'.
  - exact Hb.
  - assert (~ a' <= b') by (rewrite <- Qle_bool_iff; congruence). lra.
  - apply Qle_bool_iff in E'. lra.
  - exact Ha.
Qed.

Lemma larger_nonneg (a b : Q) : 0 <= a -> 0 <= larger a b.
Proof.
  intros Ha. unfold larger. destruct (Qle_bool a b) eqn:E; [| exact Ha].
  apply Qle_bool_iff in E. lra.
Qed.

Lemma round2_mono (x y : Q) : x <= y -> round2 x <= round2 y.
Proof.
  intros H. unfold round2.
  apply Qmult_le_compat_r; [| discriminate].
  rewrite <- Zle_Qle. apply Qfloor_resp_le. lra.
Qed.

Lemma round2_nonneg (x : Q) : 0 <= x -> 0 <= round2 x.
Proof.
  intros H. apply Qle_trans with (round2 0); [vm_compute; discriminate |].
  apply round2_mono, H.
Qed.

Lemma round2_close (x : Q) :
  round2 x - x <= 1 # 200 /\ x - round2 x <= 1 # 200.
Proof.
  unfold round2.
  pose proof (Qfloor_le (x * 100 + (1 # 2))) as Hle.
  pose proof (Qlt_floor (x * 100 + (1 # 2))) as Hlt.
  rewrite inject_Z_plus in Hlt.
  set (n := inject_Z (Qfloor (x * 100 + (1 # 2)))) in *.
  change (inject_Z 1) with 1 in Hlt.
  clearbody n. unfold Qdiv. change (/ 100) with (1 # 100).
  split; lra.
Qed.

Lemma in_rule (fires : bool) (a b : Alert) :
  In a (rule fires b) <-> fires = true /\ a = b.
Proof.
  unfold rule. destruct fires; cbn.
  - split; [intros [H | []]; auto | intros [_ H]; auto].
  - split; [intros [] | intros [H _]; discriminate].
Qed.

Lemma alert_text_injective (a b : Alert) : alert_text a = alert_text b -> a = b.
Proof. destruct a, b; cbn; intros H; try reflexivity; discriminate H. Qed.

Lemma in_result_alerts (c : PricingConfig) (r : ShippingRequest) (a : Alert) :
  In (alert_text a) (result_alerts (calculate c r)) <-> In a (alert_rules c r).
Proof.
  cbn [calculate result_alerts]. rewrite in_map_iff. split.
  - intros [b [Hb Hin]]. apply alert_text_injective in Hb. subst b. exact Hin.
  - intros H. exists a. split; [reflexivity | exact H].
Qed.

(** C3: the alerts of the engine contain the heavy-package alert
    exactly when [weight_kg] is strictly greater than 20; at 20 there
    is none. *)
Theorem heavy_alert_iff_over_20 (c : PricingConfig) (r : ShippingRequest) :
  (In (alert_text HeavyPackage) (result_alerts (calculate c r))
   <-> 20 < weight_kg r) /\
  (weight_kg r == 20 ->
   ~ In (alert_text HeavyPackage) (result_alerts (calculate c r))).
Proof.
  assert (Hiff : In (alert_text HeavyPackage) (result_alerts (calculate c r))
                 <-> 20 < weight_kg r).
  { rewrite in_result_alerts. unfold alert_rules.
    rewrite !in_app_iff, !in_rule, exceeds_iff. unfold HEAVY_WEIGHT_KG.
    split; [| tauto].
    intros [[H _] | [[_ H] | [[_ H] | [_ H]]]]; [exact H | discriminate ..]. }
  split; [exact Hiff |].
  intros Heq Hin. apply Hiff in Hin. lra.
Qed.

(** C4: the alerts of the engine contain the customs-documentation
    alert exactly when the destination is international; a national
    destination never has it. *)
Theorem customs_alert_iff_international (c : PricingConfig) (r : ShippingRequest) :
  (In (alert_text CustomsDocumentation) (result_alerts (calculate c r))
   <-> destination r = international) /\
  (destination r = national ->
   ~ In (alert_text CustomsDocumentation) (result_alerts (calculate c r))).
Proof.
  assert (Hiff : In (alert_text CustomsDocumentation)
                   (result_alerts (calculate c r))
                 <-> destination r = international).
  { rewrite in_result_alerts. unfold alert_rules.
    rewrite !in_app_iff, !in_rule.
    destruct (destination r); split; try tauto; try discriminate.
    intros [[_ H] | [[_ H] | [[_ H] | [H _]]]]; discriminate. }
  split; [exact Hiff |].
  intros Hnat Hin. apply Hiff in Hin. congruence.
Qed.

Lemma multipliers_nonneg (c : PricingConfig) (d : Destination) (express : bool) :
  valid_config c ->
  0 <= destination_multiplier c d /\ 0 <= express_factor c express.
Proof.
  intros (_ & _ & Hn & Hi & He).
  split.
  - destruct d; cbn; lra.
  - destruct express; cbn; lra.
Qed.

Lemma base_price_nonneg (c : PricingConfig) (r : ShippingRequest) :
  valid_config c -> valid_request r -> 0 <= base_price c r.
Proof.
  intros (Hk & _) (_ & _ & _ & Hw).
  apply larger_nonneg. apply Qmult_le_0_compat; lra.
Qed.

Lemma exact_price_nonneg (c : PricingConfig) (r : ShippingRequest) :
  valid_config c -> valid_request r -> 0 <= exact_price c r.
Proof.
  intros Hc Hr. unfold exact_price.
  destruct (multipliers_nonneg c (destination r) (is_express r) Hc) as [Hd He].
  pose proof (base_price_nonneg c r Hc Hr) as Hb.
  repeat apply Qmult_le_0_compat; assumption.
Qed.

(** C6: of two valid requests that differ only in [weight_kg], the
    heavier one is not cheaper. *)
Theorem total_price_monotone_in_weight
    (c : PricingConfig) (r : ShippingRequest) (kg : Q) :
  valid_config c ->
  valid_request r ->
  weight_kg r <= kg ->
  total_price c r <= total_price c (with_weight_kg r kg).
Proof.
  intros Hc Hr Hkg. unfold total_price. apply round2_mono.
  unfold exact_price. cbn [with_weight_kg destination is_express].
  destruct (multipliers_nonneg c (destination r) (is_express r) Hc) as [Hd He].
  apply Qmult_le_compat_r; [| exact He].
  apply Qmult_le_compat_r; [| exact Hd].
  unfold base_price, volume. cbn [with_weight_kg length_cm width_cm height_cm weight_kg].
  apply larger_mono; [| apply Qle_refl].
  destruct Hc as (Hk & _).
  rewrite !(Qmult_comm (rate_per_kg c)).
  apply Qmult_le_compat_r; assumption.
Qed.

(** C7: the delivery estimate of the engine is the entry of a table
    keyed by (destination, is_express) alone; the table has exactly
    four texts, all different, and each one is the estimate of some
    valid request. *)
Theorem estimated_delivery_by_destination_and_express :
  (forall c r,
     result_estimated_delivery (calculate c r)
     = delivery_lookup (destination r) (is_express r)) /\
  (forall c r, In (result_estimated_delivery (calculate c r)) delivery_texts) /\
  (forall c1 c2 r1 r2,
     destination r1 = destination r2 ->
     is_express r1 = is_express r2 ->
     result_estimated_delivery (calculate c1 r1)
     = result_estimated_delivery (calculate c2 r2)) /\
  List.length delivery_texts = 4%nat /\
  NoDup delivery_texts /\
  (forall text, In text delivery_texts ->
     exists r, valid_request r /\
       forall c, result_estimated_delivery (calculate c r) = text).
Proof.
  split; [reflexivity |].
  split.
  { intros c r. cbn [calculate result_estimated_delivery].
    destruct (destination r), (is_express r); cbn; auto. }
  split.
  { intros c1 c2 r1 r2 Hd He. cbn [calculate result_estimated_delivery].
    rewrite Hd, He. reflexivity. }
  split; [reflexivity |].
  split.
  { repeat constructor; cbn; intuition discriminate. }
  intros text Hin.
  assert (Hvalid : forall d e, valid_request (mkShippingRequest 1 1 1 1 d e)).
  { intros d e. unfold valid_request. cbn. repeat split; reflexivity. }
  cbn in Hin. destruct Hin as [<- | [<- | [<- | [<- | []]]]].
  - exists (mkShippingRequest 1 1 1 1 national false). split; [apply Hvalid | reflexivity].
  - exists (mkShippingRequest 1 1 1 1 national true). split; [apply Hvalid | reflexivity].
  - exists (mkShippingRequest 1 1 1 1 international false). split; [apply Hvalid | reflexivity].
  - exists (mkShippingRequest 1 1 1 1 international true). split; [apply Hvalid | reflexivity].
Qed.

End EngineFacts.

(** * The price as the client prints it *)

Section FormatFacts.

Lemma length_append (a b : string) :
  String.length (a ++ b) = (String.length a + String.length b)%nat.
Proof. induction a as [| c a IH]; cbn; [reflexivity | rewrite IH; reflexivity]. Qed.

Lemma take_drop (n : nat) (s : string) : take n s ++ drop n s = s.
Proof.
  revert s. induction n as [| n IH]; intros s; [reflexivity |].
  destruct s as [| c s]; cbn; [reflexivity | rewrite IH; reflexivity].
Qed.

Lemma length_drop (n : nat) (s : string) :
  String.length (drop n s) = (String.length s - n)%nat.
Proof.
  revert s. induction n as [| n IH]; intros s; cbn.
  - rewrite Nat.sub_0_r. reflexivity.
  - destruct s as [| c s]; cbn; [reflexivity | apply IH].
Qed.

Lemma all_digits_append (a b : string) :
  all_digits (a ++ b) = all_digits a && all_digits b.
Proof.
  induction a as [| c a IH]; cbn; [reflexivity |].
  rewrite IH, andb_assoc. reflexivity.
Qed.

Lemma all_digits_zeros (k : nat) : all_digits (zeros k) = true.
Proof. induction k as [| k IH]; cbn; [reflexivity | exact IH]. Qed.

Lemma length_zeros (k : nat) : String.length (zeros k) = k.
Proof. induction k as [| k IH]; cbn; [reflexivity | rewrite IH; reflexivity]. Qed.

Lemma all_digits_string_of_uint (d : Decimal.uint) :
  all_digits (NilEmpty.string_of_uint d) = true.
Proof. induction d; cbn; [reflexivity | assumption ..]. Qed.

Lemma all_digits_digits (n : Z) : all_digits (digits n) = true.
Proof.
  unfold digits, NilZero.string_of_uint.
  destruct (N.to_uint (Z.to_N n)) eqn:E; try reflexivity;
    rewrite <- E; apply all_digits_string_of_uint.
Qed.

(** A run of at least three digits with a point before the last two. *)
Lemma point_before_last_two (m : string) :
  all_digits m = true ->
  (3 <= String.length m)%nat ->
  two_decimal_digits
    (take (String.length m - 2) m ++ "." ++ drop (String.length m - 2) m).
Proof.
  intros Hd Hlen.
  exists (take (String.length m - 2) m), (drop (String.length m - 2) m).
  pose proof (take_drop (String.length m - 2) m) as Hsplit.
  rewrite <- Hsplit, all_digits_append in Hd at 1.
  apply andb_prop in Hd. destruct Hd as [Ha Hb].
  repeat split; try assumption.
  - destruct m as [| c m]; [cbn in Hlen; lia |].
    replace (String.length (String c m) - 2)%nat
      with (S (String.length m - 2)) by (cbn in *; lia).
    discriminate.
  - rewrite length_drop. lia.
Qed.

(** For a number that is not negative and below 10^21, [toFixed(2)]
    prints digits, a point and two digits. *)
Lemma toFixed_two_decimals (x : Q) :
  (0 <= x)%Q -> (x < TEN_POW_21)%Q ->
  two_decimal_digits (toFixed 2 (Finite x)).
Proof.
  intros H0 Hbig. unfold toFixed.
  apply Qle_bool_iff in H0. rewrite H0.
  destruct (Qle_bool TEN_POW_21 x) eqn:E.
  { apply Qle_bool_iff in E. exfalso. lra. }
  cbn [append].
  set (m := digits (nearest_scaled 2 x)).
  assert (Hm : all_digits m = true) by apply all_digits_digits.
  destruct (String.length m <=? 2)%nat eqn:Hshort.
  - apply Nat.leb_le in Hshort. apply point_before_last_two.
    + rewrite all_digits_append, all_digits_zeros, Hm. reflexivity.
    + rewrite length_append, length_zeros. lia.
  - apply Nat.leb_gt in Hshort. apply point_before_last_two; [exact Hm | lia].
Qed.

Lemma two_decimal_digits_has_point (s : string) :
  two_decimal_digits s -> includes "." s = true.
Proof.
  intros (a & b & -> & _). induction a as [| c a IH].
  - destruct b; reflexivity.
  - change (String c a ++ "." ++ b) with (String c (a ++ "." ++ b)).
    cbn [includes]. rewrite IH.
    destruct (String.prefix "." (String c (a ++ "." ++ b))); reflexivity.
Qed.

End FormatFacts.

Section PriceFacts.

Import PricingEngine.
Local Open Scope Q_scope.

Lemma example_config_valid : valid_config example_config.
Proof. unfold valid_config, example_config. cbn. repeat split; lra. Qed.

Lemma sample_request_valid : valid_request Backend.sample_request.
Proof. unfold valid_request. cbn. repeat split; reflexivity. Qed.

Lemma price_text_of_response (c : PricingConfig) (r : ShippingRequest) :
  priceText (response (calculate c r))
  = Some (toFixed 2 (Finite (total_price c r))).
Proof. reflexivity. Qed.

(** C5, as the code has it: for every valid request the total price is
    not negative and is a whole number of hundredths, the nearest one
    to the exact price, and the client prints it with exactly two
    decimal digits as long as it is below 10^21. *)
Theorem total_price_rounded_and_displayed (c : PricingConfig) (r : ShippingRequest) :
  valid_config c ->
  valid_request r ->
  0 <= total_price c r /\
  whole_cents (total_price c r) /\
  (total_price c r - exact_price c r <= 1 # 200 /\
   exact_price c r - total_price c r <= 1 # 200) /\
  (total_price c r < TEN_POW_21 ->
   displays_two_decimals (response (calculate c r))).
Proof.
  intros Hc Hr.
  assert (Hprice : 0 <= total_price c r).
  { apply round2_nonneg, exact_price_nonneg; assumption. }
  split; [exact Hprice |].
  split.
  { exists (Qfloor (exact_price c r * 100 + (1 # 2))). reflexivity. }
  split; [apply round2_close |].
  intros Hbig. exists (toFixed 2 (Finite (total_price c r))).
  split; [apply price_text_of_response |].
  apply toFixed_two_decimals; assumption.
Qed.

Lemma total_price_rounded_and_displayed_witness :
  valid_config example_config /\
  valid_request Backend.sample_request /\
  0 <= total_price example_config Backend.sample_request /\
  whole_cents (total_price example_config Backend.sample_request) /\
  total_price example_config Backend.sample_request < TEN_POW_21 /\
  displays_two_decimals
    (response (calculate example_config Backend.sample_request)).
Proof.
  pose proof example_config_valid as Hc.
  pose proof sample_request_valid as Hr.
  destruct (total_price_rounded_and_displayed
              example_config Backend.sample_request Hc Hr)
    as (Hprice & Hcents & _ & Hshown).
  assert (Hbelow : total_price example_config Backend.sample_request < TEN_POW_21)
    by (vm_compute; reflexivity).
  repeat split; try assumption. exact (Hshown Hbelow).
Defined.

(** C5, as stated, fails for a valid request whose price reaches
    10^21: the client prints it in exponent notation. *)
Lemma huge_price_displayed_in_exponent_notation :
  valid_config example_config /\
  valid_request Backend.huge_request /\
  priceText (response (calculate example_config Backend.huge_request))
    = Some "1e+21"%string /\
  ~ displays_two_decimals
      (response (calculate example_config Backend.huge_request)).
Proof.
  split; [exact example_config_valid |].
  split; [unfold valid_request; repeat split; vm_compute; reflexivity |].
  assert (Htext : priceText (response (calculate example_config Backend.huge_request))
                  = Some "1e+21"%string) by (vm_compute; reflexivity).
  split; [exact Htext |].
  intros (s & Hs & Htwo). rewrite Htext in Hs. injection Hs as <-.
  apply two_decimal_digits_has_point in Htwo. discriminate Htwo.
Qed.

(** Below the limit the sample request is printed as the README shows
    it. *)
Example sample_price_text :
  priceText (response (calculate example_config Backend.sample_request))
  = Some "85.50"%string.
Proof. vm_compute. reflexivity. Qed.

Lemma total_price_monotone_in_weight_witness :
  valid_config example_config /\
  valid_request Backend.sample_request /\
  weight_kg Backend.sample_request <= 40 /\
  total_price example_config Backend.sample_request
  <= total_price example_config (with_weight_kg Backend.sample_request 40).
Proof.
  pose proof example_config_valid as Hc.
  pose proof sample_request_valid as Hr.
  assert (Hkg : weight_kg Backend.sample_request <= 40).
  { cbn. lra. }
  split; [exact Hc |]. split; [exact Hr |]. split; [exact Hkg |].
  exact (total_price_monotone_in_weight
           example_config Backend.sample_request 40 Hc Hr Hkg).
Defined.

End PriceFacts.

(** * The theorems at sample inputs *)

Section Samples.

Import PricingEngine Backend.

Lemma handleSubmit_rejects_invalid_field_witness :
  existsb (rejected parseFloat_exact invalid_form) numericFields = true /\
  exists before field after,
    ["length_cm"; "width_cm"; "height_cm"; "weight_kg"]
      = (before ++ field :: after)%list /\
    forallb (fun f => negb (rejected parseFloat_exact invalid_form f)) before
      = true /\
    rejected parseFloat_exact invalid_form field = true /\
    fst (handleSubmit parseFloat_exact (calculate_endpoint example_config)
           invalid_form idle) = Returns /\
    let w' := snd (handleSubmit parseFloat_exact
                     (calculate_endpoint example_config) invalid_form idle) in
    CalculatePage.error (hooks w') =
      "Please enter a valid positive number for " ++ replace "_" " " field /\
    sent w' = sent idle /\
    result (hooks w') = None.
Proof.
  split; [reflexivity |].
  exact (handleSubmit_rejects_invalid_field parseFloat_exact
           (calculate_endpoint example_config) invalid_form idle eq_refl).
Defined.

(** The field named for [invalid_form] is the width, the first one
    that is rejected. *)
Example invalid_form_message :
  CalculatePage.error
    (hooks (snd (handleSubmit parseFloat_exact
                   (calculate_endpoint example_config) invalid_form idle)))
  = "Please enter a valid positive number for width cm".
Proof. vm_compute. reflexivity. Qed.

Lemma handleSubmit_result_by_response_witness :
  forallb (fun field => negb (rejected parseFloat_exact sample_form field))
    numericFields = true /\
  (fun (_ : string) (_ : RequestInit) => refusal)
    API_URL (requestInit parseFloat_exact sample_form)
  = Response false
      (JsonData (failure "Dimensions and weight must be positive numbers")) /\
  let w' := snd (handleSubmit parseFloat_exact (fun _ _ => refusal)
                   sample_form idle) in
  result (hooks w') = None /\
  CalculatePage.error (hooks w')
    = "Dimensions and weight must be positive numbers".
Proof.
  assert (Hpass : forallb (fun field => negb (rejected parseFloat_exact sample_form field))
                    numericFields = true) by reflexivity.
  split; [exact Hpass |]. split; [reflexivity |].
  destruct (handleSubmit_result_by_response parseFloat_exact
              (fun _ _ => refusal) sample_form idle false
              (JsonData (failure "Dimensions and weight must be positive numbers"))
              Hpass eq_refl) as (_ & _ & Hrefused & _).
  destruct (Hrefused _ eq_refl) as (Hnone & Htext & _).
  { intros [Hok _]. discriminate Hok. }
  split; [exact Hnone |].
  apply (Htext "Dimensions and weight must be positive numbers" eq_refl).
  discriminate.
Defined.

(** C9, as stated, fails for a response whose body is not JSON: the
    error is the parser's message, which is neither an error text of the
    response nor the fallback. *)
Lemma unparsed_response_shows_parser_message :
  forallb (fun field => negb (rejected parseFloat_exact sample_form field))
    numericFields = true /\
  brokenBody
  = Response false
      (JsonRejects (ErrorObject "Unexpected token < in JSON at position 0")) /\
  let w' := snd (handleSubmit parseFloat_exact (fun _ _ => brokenBody)
                   sample_form idle) in
  sent w' = [(API_URL, requestInit parseFloat_exact sample_form)] /\
  result (hooks w') = None /\
  CalculatePage.error (hooks w') = "Unexpected token < in JSON at position 0" /\
  CalculatePage.error (hooks w') <> "API request failed".
Proof.
  split; [reflexivity |]. split; [reflexivity |].
  cbv zeta. repeat split; try reflexivity. vm_compute. discriminate.
Qed.

(** C2, as stated, fails for the list: the card of the sample answer,
    which carries two alerts, has two alert items and not four; only
    the heading is there twice. *)
Lemma sample_alerts_rendered_once :
  result answered = Some served /\
  success served = true /\
  alerts served
  = [PricingEngine.alert_text PricingEngine.HeavyPackage;
     PricingEngine.alert_text PricingEngine.CustomsDocumentation] /\
  count_in (count_titled "h5" "Shipping Alerts")
    (resultsCard toLowerCase_ascii toUpperCase_ascii answered) = 2%nat /\
  count_in (count_tag "Alert")
    (resultsCard toLowerCase_ascii toUpperCase_ascii answered) = 2%nat /\
  count_in (count_tag "Alert")
    (resultsCard toLowerCase_ascii toUpperCase_ascii answered)
  <> (2 * List.length (alerts served))%nat.
Proof.
  repeat split; try reflexivity. vm_compute. discriminate.
Qed.

(** A request the endpoint refuses: the page shows the endpoint's error
    text and no result. *)
Example refused_request_sets_error :
  let refusing := fun (_ : string) (_ : RequestInit) =>
    Response false (JsonData (failure "Dimensions and weight must be positive numbers")) in
  let w' := snd (handleSubmit parseFloat_exact refusing sample_form idle) in
  result (hooks w') = None /\
  CalculatePage.error (hooks w') = "Dimensions and weight must be positive numbers".
Proof. vm_compute. split; reflexivity. Qed.

Lemma results_card_repeats_alerts_heading_witness :
  result answered = Some served /\
  success served = true /\
  alerts served <> [] /\
  count_in (count_titled "h5" "Shipping Alerts")
    (resultsCard toLowerCase_ascii toUpperCase_ascii answered) = 2%nat /\
  alertsBlock toLowerCase_ascii served =
    [Element "div" [className "mt-4"]
       [alertsHeading;
        Element "div" [className "mt-4"]
          (alertsHeading
           :: map_index (alertItem toLowerCase_ascii) 0 (alerts served))]] /\
  count_in (count_tag "Alert")
    (resultsCard toLowerCase_ascii toUpperCase_ascii answered)
    = List.length (alerts served).
Proof.
  assert (Hne : alerts served <> []) by discriminate.
  split; [reflexivity |]. split; [reflexivity |]. split; [exact Hne |].
  destruct (results_card_repeats_alerts_heading
              toLowerCase_ascii toUpperCase_ascii answered served
              eq_refl eq_refl) as [Hsome _].
  exact (Hsome Hne).
Defined.

(** The card of the sample answer: two headings, two alert items. *)
Example sample_card_counts :
  count_in (count_titled "h5" "Shipping Alerts")
    (resultsCard toLowerCase_ascii toUpperCase_ascii answered) = 2%nat /\
  count_in (count_tag "Alert")
    (resultsCard toLowerCase_ascii toUpperCase_ascii answered) = 2%nat.
Proof. split; vm_compute; reflexivity. Qed.

End Samples.

(** * Further properties of the page *)

Section InputFacts.

Variable parseFloat : string -> number.

Lemma form_input_cases (t : InputTarget) :
  isFormInput t = true ->
  (type t = "number" /\ In (name t) numericFields) \/
  (type t = "radio" /\ name t = "destination" /\
   (value t = "national" \/ value t = "international")) \/
  (type t = "checkbox" /\ name t = "is_express").
Proof.
  unfold isFormInput. intros H.
  apply orb_prop in H. destruct H as [H | H];
    [apply orb_prop in H; destruct H as [H | H] |].
  - left. apply andb_prop in H. destruct H as [Ht Hn].
    apply String.eqb_eq in Ht. split; [exact Ht |].
    apply existsb_exists in Hn. destruct Hn as (f & Hin & Heq).
    apply String.eqb_eq in Heq. subst f. exact Hin.
  - right. left. apply andb_prop in H. destruct H as [H Hv].
    apply andb_prop in H. destruct H as [Ht Hn].
    apply String.eqb_eq in Ht. apply String.eqb_eq in Hn.
    apply orb_prop in Hv.
    repeat split; try assumption.
    destruct Hv as [Hv | Hv]; apply String.eqb_eq in Hv; auto.
  - right. right. apply andb_prop in H. destruct H as [Ht Hn].
    apply String.eqb_eq in Ht. apply String.eqb_eq in Hn. auto.
Qed.

Ltac form_input t H :=
  let Hc := fresh "Hc" in
  let Hn := fresh "Hn" in
  pose proof (form_input_cases _ H) as Hc;
  destruct t as [? ? ? ?]; cbn [name value type checked] in *;
  destruct Hc as [[-> Hn] | [(-> & -> & [-> | ->]) | [-> ->]]];
  [ cbn [numericFields In] in Hn;
    destruct Hn as [<- | [<- | [<- | [<- | []]]]] | | | ].

Ltac other_key key Hkey :=
  unfold field_text;
  repeat match goal with
         | |- context [String.eqb key ?k] =>
             destruct (String.eqb_spec key k);
             [ subst key; try (exfalso; apply Hkey; reflexivity) | ]
         end;
  try reflexivity.

(** X1: a change of one of the form's inputs stores the changed value
    under the input's name and nowhere else. *)
Theorem handleInputChange_sets_named_field (t : InputTarget) (w : World) :
  isFormInput t = true ->
  exists w',
    handleInputChange t w = Some (Normal tt, w') /\
    field_text (formData (hooks w')) (name t) = valueText (changedValue t) /\
    (forall key, key <> name t ->
       field_text (formData (hooks w')) key
       = field_text (formData (hooks w)) key) /\
    result (hooks w') = result (hooks w) /\
    loading (hooks w') = loading (hooks w) /\
    error (hooks w') = error (hooks w) /\
    sent w' = sent w.
Proof.
  intros H. form_input t H;
    (eexists; split; [reflexivity |];
     split; [reflexivity |];
     split; [| repeat split; reflexivity];
     intros key Hkey; cbn; other_key key Hkey).
Qed.

(** X2: changes of two different inputs of the form can be made in
    either order, and of two changes of the same input the later one
    stands. *)
Theorem changes_commute_or_overwrite (t1 t2 : InputTarget) (w : World) :
  isFormInput t1 = true ->
  isFormInput t2 = true ->
  (name t1 <> name t2 ->
     run parseFloat [Change t1; Change t2] w
     = run parseFloat [Change t2; Change t1] w) /\
  (name t1 = name t2 ->
     run parseFloat [Change t1; Change t2] w = run parseFloat [Change t2] w).
Proof.
  intros H1 H2. form_input t1 H1; form_input t2 H2;
    (split; intros Hname; [try (exfalso; apply Hname; reflexivity) |
                           try discriminate Hname]; reflexivity).
Qed.

Lemma run_app (l1 l2 : list Action) (w : World) :
  run parseFloat (l1 ++ l2) w
  = match run parseFloat l1 w with
    | Some w' => run parseFloat l2 w'
    | None => None
    end.
Proof.
  revert w. induction l1 as [| a l1 IH]; intros w; cbn; [reflexivity |].
  destruct (act parseFloat a w); [apply IH | reflexivity].
Qed.

Lemma changes_swap (a1 a2 : Action) (w : World) :
  isInputChange a1 = true ->
  isInputChange a2 = true ->
  changedName a1 <> changedName a2 ->
  run parseFloat [a1; a2] w = run parseFloat [a2; a1] w.
Proof.
  destruct a1 as [t1 | | |], a2 as [t2 | | |]; cbn [isInputChange changedName];
    try discriminate.
  intros H1 H2 Hname. form_input t1 H1; form_input t2 H2;
    try (exfalso; apply Hname; reflexivity); reflexivity.
Qed.

Lemma run_permutation (l l' : list Action) :
  Permutation l l' ->
  Forall (fun a => isInputChange a = true) l ->
  NoDup (map changedName l) ->
  forall w, run parseFloat l w = run parseFloat l' w.
Proof.
  induction 1 as [| a l l' Hperm IH | a1 a2 l | l l' l'' H1 IH1 H2 IH2];
    intros Hall Hnames w.
  - reflexivity.
  - cbn [run]. inversion Hall; subst. inversion Hnames; subst.
    destruct (act parseFloat a w); [apply IH; assumption | reflexivity].
  - change (run parseFloat ([a2; a1] ++ l) w = run parseFloat ([a1; a2] ++ l) w).
    rewrite !run_app.
    inversion Hall as [| ? ? Ha2 Hall']; subst.
    inversion Hall' as [| ? ? Ha1 _]; subst.
    inversion Hnames as [| ? ? Hnot _]; subst.
    rewrite (changes_swap a2 a1 w Ha2 Ha1); [reflexivity |].
    intros Heq. apply Hnot. left. symmetry. exact Heq.
  - rewrite IH1 by assumption. apply IH2.
    + eapply Permutation_Forall; eassumption.
    + eapply Permutation_NoDup; [apply Permutation_map; eassumption | assumption].
Qed.

(** X3: whatever the form held before and in whatever order its six
    inputs are changed, once each has been changed the form data is
    exactly what was entered, and nothing else on the page has moved. *)
Theorem fillIn_in_any_order
    (a b c d : string) (express : bool) (dst : Destination)
    (actions : list Action) (w : World) :
  Permutation actions (fillIn a b c d express dst) ->
  run parseFloat actions w
  = Some (mkWorld
            (mkState (mkShippingFormData a b c d express dst)
               (result (hooks w)) (loading (hooks w)) (error (hooks w)))
            (sent w) (defaultPrevented w)).
Proof.
  intros Hperm.
  rewrite <- (run_permutation (fillIn a b c d express dst) actions).
  - destruct dst; reflexivity.
  - apply Permutation_sym, Hperm.
  - unfold fillIn. repeat constructor; destruct dst; reflexivity.
  - unfold fillIn. cbn [map changedName name].
    repeat constructor; cbn; intuition discriminate.
Qed.

End InputFacts.

Section SubmitFacts.

Variable parseFloat : string -> number.
Variable fetch : string -> RequestInit -> FetchOutcome.

Lemma rejected_iff_not_accepted (fd : ShippingFormData) (field : string) :
  rejected parseFloat fd field = false
  <-> accepted (parseFloat (field_text fd field)).
Proof.
  unfold rejected, accepted.
  destruct (parseFloat (field_text fd field)) as [| negative | q]; cbn.
  - split; [discriminate | contradiction].
  - reflexivity.
  - destruct (Qle_bool q 0) eqn:E.
    + apply Qle_bool_iff in E. split; [discriminate | intros H; exfalso; lra].
    + split; [intros _ | reflexivity].
      apply Qnot_le_lt. intros H. apply Qle_bool_iff in H. congruence.
Qed.

Lemma loop_passes_iff_accepted (fd : ShippingFormData) :
  forallb (fun field => negb (rejected parseFloat fd field)) numericFields = true
  <-> forall field, In field numericFields ->
        accepted (parseFloat (field_text fd field)).
Proof.
  rewrite forallb_forall. split; intros H field Hin.
  - apply rejected_iff_not_accepted, negb_true_iff, H, Hin.
  - apply negb_true_iff, rejected_iff_not_accepted, H, Hin.
Qed.

Lemma exchange_sends (fd : ShippingFormData) (w : World) :
  sent (snd (exchange parseFloat fetch fd w))
  = (API_URL, requestInit parseFloat fd) :: sent w.
Proof.
  unfold exchange, try_catch_finally, await_fetch, call_fetch, bind. cbn.
  destruct (fetch API_URL (requestInit parseFloat fd)) as [e | ok [e | data]];
    cbn; try reflexivity.
  destruct (negb ok || negb (success data)); reflexivity.
Qed.

(** X4: [handleSubmit] makes the network call exactly when each of the
    four fields parses to a positive number, [Infinity] included; it is
    then one POST to the calculate address with the JSON content type,
    and no run makes more than one call. *)
Theorem handleSubmit_sends_iff_accepted (fd : ShippingFormData) (w : World) :
  let w' := snd (handleSubmit parseFloat fetch fd w) in
  ((forall field, In field numericFields ->
      accepted (parseFloat (field_text fd field))) <->
   exists init,
     sent w' = (API_URL, init) :: sent w /\
     method init = "POST" /\
     headers init = [("Content-Type", "application/json")]) /\
  (~ (forall field, In field numericFields ->
        accepted (parseFloat (field_text fd field))) <->
   sent w' = sent w).
Proof.
  cbv zeta.
  assert (Hcons : forall (r : string * RequestInit) l, r :: l <> l).
  { intros r l H. apply (f_equal (@List.length _)) in H. cbn in H. lia. }
  rewrite <- loop_passes_iff_accepted.
  destruct (loop_passes_or_rejects parseFloat fd) as [Hpass | [field Hfield]].
  - rewrite (handleSubmit_loop_passes parseFloat fetch fd w Hpass), exchange_sends.
    cbn [submitting sent]. split; split; intros H.
    + exists (requestInit parseFloat fd). repeat split; reflexivity.
    + exact Hpass.
    + contradiction.
    + exfalso. exact (Hcons _ _ H).
  - rewrite (handleSubmit_loop_rejects parseFloat fetch fd w field Hfield).
    cbn [rejected_world sent snd].
    assert (Hnot : forallb (fun f => negb (rejected parseFloat fd f)) numericFields
                   <> true).
    { intros Hall. destruct (find_is_first _ _ _ Hfield) as (before & after & Hl & _ & Hx).
      rewrite forallb_forall in Hall.
      assert (Hin : In field numericFields).
      { rewrite Hl. apply in_elt. }
      specialize (Hall field Hin). rewrite Hx in Hall. discriminate. }
    split; split; intros H.
    + contradiction.
    + exfalso. destruct H as (init & Hsent & _). symmetry in Hsent.
      exact (Hcons _ _ Hsent).
    + reflexivity.
    + exact Hnot.
Qed.

(** X5: when the call is made and [fetch] or [response.json()]
    rejects, the page shows the message of the thrown error, or a fixed
    text when what was thrown is not an error; this holds for a body
    that is not JSON whatever the status of the response. *)
Theorem handleSubmit_shows_thrown_message
    (fd : ShippingFormData) (w : World) (e : thrown) :
  forallb (fun field => negb (rejected parseFloat fd field)) numericFields = true ->
  (fetch API_URL (requestInit parseFloat fd) = FetchRejects e \/
   exists ok, fetch API_URL (requestInit parseFloat fd)
              = Response ok (JsonRejects e)) ->
  let run := handleSubmit parseFloat fetch fd w in
  fst run = Normal tt /\
  error (hooks (snd run)) = caughtMessage e /\
  result (hooks (snd run)) = None /\
  loading (hooks (snd run)) = false.
Proof.
  intros Hpass Hfetch. cbv zeta.
  rewrite (handleSubmit_loop_passes parseFloat fetch fd w Hpass).
  unfold exchange, try_catch_finally, await_fetch, call_fetch, bind. cbn.
  destruct Hfetch as [-> | [ok ->]]; cbn; destruct e; repeat split; reflexivity.
Qed.

(** X6: [handleSubmit] never changes the form data, and what it leaves
    in the hook cells does not depend on the result, the error or the
    loading flag it found, nor on the requests sent before. *)
Theorem handleSubmit_starts_clean
    (fd form : ShippingFormData) (r1 r2 : option ApiResponse)
    (l1 l2 : bool) (e1 e2 : string) (s1 s2 : list (string * RequestInit))
    (d1 d2 : bool) :
  hooks (snd (handleSubmit parseFloat fetch fd
                (mkWorld (mkState form r1 l1 e1) s1 d1)))
  = hooks (snd (handleSubmit parseFloat fetch fd
                  (mkWorld (mkState form r2 l2 e2) s2 d2))) /\
  formData (hooks (snd (handleSubmit parseFloat fetch fd
                          (mkWorld (mkState form r1 l1 e1) s1 d1))))
  = form.
Proof.
  destruct (loop_passes_or_rejects parseFloat fd) as [Hpass | [field Hfield]].
  - rewrite !(handleSubmit_loop_passes parseFloat fetch fd _ Hpass).
    unfold exchange, try_catch_finally, await_fetch, call_fetch, bind. cbn.
    destruct (fetch API_URL (requestInit parseFloat fd)) as [e | ok [e | data]];
      cbn; try (split; reflexivity).
    destruct (negb ok || negb (success data)); cbn; split; reflexivity.
  - rewrite !(handleSubmit_loop_rejects parseFloat fetch fd _ field Hfield).
    split; reflexivity.
Qed.

Lemma handleSubmit_split (fd : ShippingFormData) (w : World) :
  handleSubmit parseFloat fetch fd w
  = bind (beforeTry parseFloat fd) (fun _ => exchange parseFloat fetch fd) w.
Proof.
  destruct (loop_passes_or_rejects parseFloat fd) as [Hpass | [field Hfield]].
  - rewrite (handleSubmit_loop_passes parseFloat fetch fd w Hpass).
    cbn [forallb numericFields] in Hpass.
    repeat (apply andb_prop in Hpass; destruct Hpass as [?H Hpass]).
    repeat match goal with
           | H' : negb _ = true |- _ => apply negb_true_iff in H'
           end.
    unfold beforeTry. cbn [for_of numericFields]. unfold bind at 1 2. cbn.
    rewrite H, H0, H1, H2. reflexivity.
  - rewrite (handleSubmit_loop_rejects parseFloat fetch fd w field Hfield).
    cbn [find numericFields] in Hfield.
    unfold beforeTry. cbn [for_of numericFields]. unfold bind at 1 2. cbn.
    destruct (rejected parseFloat fd "length_cm");
      [injection Hfield as <-; reflexivity |].
    destruct (rejected parseFloat fd "width_cm");
      [injection Hfield as <-; reflexivity |].
    destruct (rejected parseFloat fd "height_cm");
      [injection Hfield as <-; reflexivity |].
    destruct (rejected parseFloat fd "weight_kg");
      [injection Hfield as <-; reflexivity | discriminate].
Qed.

(** X7: when the validation passes, [handleSubmit] reaches its [try]
    with nothing sent yet, the old result and error cleared and
    [loading] true, so while the request is pending the submit button is
    disabled and shows the spinner. *)
Theorem handleSubmit_pending_state (fd : ShippingFormData) (w : World) :
  forallb (fun field => negb (rejected parseFloat fd field)) numericFields = true ->
  let pending := snd (beforeTry parseFloat fd w) in
  fst (beforeTry parseFloat fd w) = Normal tt /\
  handleSubmit parseFloat fetch fd w = exchange parseFloat fetch fd pending /\
  sent pending = sent w /\
  result (hooks pending) = None /\
  error (hooks pending) = "" /\
  loading (hooks pending) = true /\
  submitButton (hooks pending) =
    Element "Button"
      [("variant", PStr "primary"); ("type", PStr "submit");
       ("disabled", PBool true); className "flex-grow-1"]
      [Element "Spinner"
         [("animation", PStr "border"); ("size", PStr "sm"); className "me-2"]
         [];
       Text "Calculating..."].
Proof.
  intros Hpass. cbv zeta.
  rewrite (handleSubmit_split fd w).
  cbn [forallb numericFields] in Hpass.
  repeat (apply andb_prop in Hpass; destruct Hpass as [?H Hpass]).
  repeat match goal with
         | H' : negb _ = true |- _ => apply negb_true_iff in H'
         end.
  unfold bind at 1.
  assert (Hbefore : beforeTry parseFloat fd w = (Normal tt, submitting w)).
  { unfold beforeTry. cbn [for_of numericFields]. unfold bind at 1. cbn.
    rewrite H, H0, H1, H2. reflexivity. }
  rewrite Hbefore. cbn. repeat split; reflexivity.
Qed.

Lemma or_else_truthy (a : option string) (b : string) :
  truthy b = true -> truthy (or_else a b) = true.
Proof.
  intros Hb. unfold or_else. destruct a as [s |]; [| exact Hb].
  destruct (truthy s) eqn:Hs; [exact Hs | exact Hb].
Qed.

(** X8: a response that is not ok or not a success always leaves a
    non-empty error, taken from the body when it has one, and the error
    banner is rendered with it. *)
Theorem refused_response_shows_banner
    (fd : ShippingFormData) (w : World) (ok : bool) (data : ApiResponse) :
  forallb (fun field => negb (rejected parseFloat fd field)) numericFields = true ->
  fetch API_URL (requestInit parseFloat fd) = Response ok (JsonData data) ->
  ok && success data = false ->
  let st := hooks (snd (handleSubmit parseFloat fetch fd w)) in
  error st <> "" /\
  (forall s, api_error data = Some s -> s <> "" -> error st = s) /\
  errorBanner st =
    [Element "Alert" [("variant", PStr "danger"); ("dismissible", PBool true)]
       [icon "ExclamationTriangle" "me-2"; Text (error st)]].
Proof.
  intros Hpass Hfetch Hrefused. cbv zeta.
  rewrite (handleSubmit_loop_passes parseFloat fetch fd w Hpass).
  rewrite (exchange_response parseFloat fetch fd w ok data Hfetch), Hrefused.
  cbn [snd settled hooks error].
  pose proof (or_else_truthy (api_error data) "API request failed" eq_refl) as Ht.
  split; [| split].
  - intros Hempty. rewrite Hempty in Ht. discriminate.
  - intros s Hs Hne. rewrite Hs. cbn. destruct s; [contradiction | reflexivity].
  - unfold errorBanner, when_truthy. cbn [error]. rewrite Ht. reflexivity.
Qed.

(** X10: a submission right after a reset is always refused: with a
    [parseFloat] that reads the empty string as NaN, as the host's does,
    the page asks for the length and sends nothing. *)
Theorem submit_after_reset_is_rejected (w : World) :
  isNaN (parseFloat "") = true ->
  let w1 := snd (handleReset w) in
  let run := handleSubmit parseFloat fetch (formData (hooks w1)) w1 in
  fst run = Returns /\
  error (hooks (snd run)) = "Please enter a valid positive number for length cm" /\
  result (hooks (snd run)) = None /\
  sent (snd run) = sent w.
Proof.
  intros Hnan. cbv zeta.
  assert (Hfield : find (rejected parseFloat
                           (formData (hooks (snd (handleReset w)))))
                     numericFields = Some "length_cm").
  { cbn. unfold rejected. cbn. rewrite Hnan. reflexivity. }
  rewrite (handleSubmit_loop_rejects parseFloat fetch _ _ _ Hfield).
  cbn. repeat split; reflexivity.
Qed.

End SubmitFacts.

Section PageFacts.

Variable parseFloat : string -> number.

Lemma submit_keeps_at_rest (outcome : FetchOutcome) (w : World) :
  atRest (hooks (snd (submitForm parseFloat outcome w))).
Proof.
  unfold submitForm.
  destruct (loop_passes_or_rejects parseFloat (formData (hooks w)))
    as [Hpass | [field Hfield]].
  - rewrite (handleSubmit_loop_passes parseFloat _ _ w Hpass).
    unfold exchange, try_catch_finally, await_fetch, call_fetch, bind. cbn.
    destruct outcome as [e | ok [e | data]]; cbn;
      try (split; [reflexivity | intros r Hr; discriminate Hr]).
    destruct ok, (success data) eqn:Hs; cbn;
      try (split; [reflexivity | intros r Hr; discriminate Hr]).
    split; [reflexivity |]. intros r [= <-]. split; [exact Hs | reflexivity].
  - rewrite (handleSubmit_loop_rejects parseFloat _ _ w field Hfield).
    split; [reflexivity | intros r Hr; discriminate Hr].
Qed.

Lemma act_keeps_at_rest (a : Action) (w w' : World) :
  atRest (hooks w) -> act parseFloat a w = Some w' -> atRest (hooks w').
Proof.
  intros [Hload Hres] Hact. destruct a as [t | outcome | |]; cbn [act] in Hact.
  - unfold handleInputChange in Hact.
    destruct (assign (formData (hooks w)) (name t) (changedValue t));
      [| discriminate].
    injection Hact as <-. split; [exact Hload | exact Hres].
  - injection Hact as <-. apply submit_keeps_at_rest.
  - injection Hact as <-. split; [exact Hload | intros r Hr; discriminate Hr].
  - injection Hact as <-. split; [exact Hload |].
    intros r Hr. split; [apply (Hres r Hr) | reflexivity].
Qed.

(** X9: starting from a page at rest, after any sequence of changes,
    submissions with any outcome, resets and closings of the banner,
    each handled to completion, nothing is loading and a stored result
    is a successful response with no error beside it: the results card
    and the error banner are never rendered together. *)
Theorem run_keeps_page_at_rest (actions : list Action) (w w' : World) :
  atRest (hooks w) ->
  run parseFloat actions w = Some w' ->
  loading (hooks w') = false /\
  (forall r, result (hooks w') = Some r ->
     success r = true /\ error (hooks w') = "") /\
  (forall toLowerCase toUpperCase,
     resultsCard toLowerCase toUpperCase (hooks w') <> [] ->
     errorBanner (hooks w') = [Text ""]).
Proof.
  revert w. induction actions as [| a actions IH]; intros w Hrest Hrun.
  - injection Hrun as <-. destruct Hrest as [Hload Hres].
    split; [exact Hload |]. split; [exact Hres |].
    intros lo up Hcard. unfold resultsCard in Hcard.
    destruct (result (hooks w)) as [r |] eqn:Hr; [| contradiction].
    destruct (Hres r eq_refl) as [_ He].
    unfold errorBanner. rewrite He. reflexivity.
  - cbn [run] in Hrun. destruct (act parseFloat a w) as [w1 |] eqn:Hact;
      [| discriminate].
    apply (IH w1); [| exact Hrun].
    apply (act_keeps_at_rest a w w1 Hrest Hact).
Qed.

End PageFacts.

Section CardFacts.

Variable toLowerCase : string -> string.
Variable toUpperCase : string -> string.

Lemma alert_items_from (l : list string) (i : nat) :
  map texts (map_index (alertItem toLowerCase) i l) = map (fun a => [a]) l /\
  map keyOf (map_index (alertItem toLowerCase) i l)
  = map (fun k => Some (PNat k)) (seq i (List.length l)).
Proof.
  revert i. induction l as [| alert l IH]; intros i; [split; reflexivity |].
  cbn [map_index map List.length seq].
  destruct (IH (S i)) as [Ht Hk]. rewrite Ht, Hk.
  split; reflexivity.
Qed.

(** X11: the nested alerts block lists the alerts of the response in
    their order, one item per alert carrying exactly its text, keyed by
    its index from 0. *)
Theorem alert_items_keep_order (r : ApiResponse) :
  alertsInner toLowerCase r =
    match alerts r with
    | [] => []
    | _ :: _ =>
        [Element "div" [className "mt-4"]
           (alertsHeading :: map_index (alertItem toLowerCase) 0 (alerts r))]
    end /\
  map texts (map_index (alertItem toLowerCase) 0 (alerts r))
    = map (fun a => [a]) (alerts r) /\
  map keyOf (map_index (alertItem toLowerCase) 0 (alerts r))
    = map (fun k => Some (PNat k)) (seq 0 (List.length (alerts r))).
Proof.
  split; [unfold alertsInner; destruct (alerts r); reflexivity |].
  apply alert_items_from.
Qed.


End CardFacts.

(** * The further properties at sample inputs *)

Section MoreSamples.

Import Backend.

Lemma handleInputChange_sets_named_field_witness :
  isFormInput switchOn = true /\
  exists w',
    handleInputChange switchOn idle = Some (Normal tt, w') /\
    field_text (formData (hooks w')) "is_express" = "true" /\
    (forall key, key <> "is_express" ->
       field_text (formData (hooks w')) key
       = field_text (formData (hooks idle)) key).
Proof.
  split; [reflexivity |].
  destruct (handleInputChange_sets_named_field switchOn idle eq_refl)
    as (w' & Hrun & Hset & Hother & _).
  exists w'. split; [exact Hrun |]. split; [exact Hset | exact Hother].
Defined.

Lemma changes_commute_or_overwrite_witness :
  isFormInput switchOn = true /\
  isFormInput weightTyped = true /\
  name switchOn <> name weightTyped /\
  run parseFloat_exact [Change switchOn; Change weightTyped] idle
  = run parseFloat_exact [Change weightTyped; Change switchOn] idle.
Proof.
  assert (Hname : name switchOn <> name weightTyped) by discriminate.
  split; [reflexivity |]. split; [reflexivity |]. split; [exact Hname |].
  destruct (changes_commute_or_overwrite parseFloat_exact
              switchOn weightTyped idle eq_refl eq_refl) as [Hswap _].
  exact (Hswap Hname).
Defined.

Lemma fillIn_in_any_order_witness :
  Permutation (rev (fillIn "30" "20" "15" "25" true international))
    (fillIn "30" "20" "15" "25" true international) /\
  run parseFloat_exact
    (rev (fillIn "30" "20" "15" "25" true international)) idle
  = Some (mkWorld (mkState sample_form None false "") [] false).
Proof.
  assert (Hperm : Permutation
                    (rev (fillIn "30" "20" "15" "25" true international))
                    (fillIn "30" "20" "15" "25" true international))
    by (apply Permutation_sym, Permutation_rev).
  split; [exact Hperm |].
  exact (fillIn_in_any_order parseFloat_exact "30" "20" "15" "25" true
           international _ idle Hperm).
Defined.

Lemma handleSubmit_shows_thrown_message_witness :
  forallb (fun field => negb (rejected parseFloat_exact sample_form field))
    numericFields = true /\
  let run := handleSubmit parseFloat_exact (fun _ _ => brokenBody)
               sample_form idle in
  fst run = Normal tt /\
  CalculatePage.error (hooks (snd run))
    = "Unexpected token < in JSON at position 0" /\
  result (hooks (snd run)) = None /\
  loading (hooks (snd run)) = false.
Proof.
  split; [reflexivity |].
  exact (handleSubmit_shows_thrown_message parseFloat_exact
           (fun _ _ => brokenBody) sample_form idle
           (ErrorObject "Unexpected token < in JSON at position 0")
           eq_refl (or_intror (ex_intro _ false eq_refl))).
Defined.

Lemma handleSubmit_pending_state_witness :
  forallb (fun field => negb (rejected parseFloat_exact sample_form field))
    numericFields = true /\
  let pending := snd (beforeTry parseFloat_exact sample_form idle) in
  sent pending = [] /\
  loading (hooks pending) = true /\
  handleSubmit parseFloat_exact (fun _ _ => refusal) sample_form idle
  = exchange parseFloat_exact (fun _ _ => refusal) sample_form pending.
Proof.
  split; [reflexivity |].
  destruct (handleSubmit_pending_state parseFloat_exact (fun _ _ => refusal)
              sample_form idle eq_refl)
    as (_ & Hsplit & Hsent & _ & _ & Hload & _).
  split; [exact Hsent |]. split; [exact Hload | exact Hsplit].
Defined.

Lemma refused_response_shows_banner_witness :
  forallb (fun field => negb (rejected parseFloat_exact sample_form field))
    numericFields = true /\
  (fun (_ : string) (_ : RequestInit) => refusal)
    API_URL (requestInit parseFloat_exact sample_form)
  = Response false
      (JsonData (failure "Dimensions and weight must be positive numbers")) /\
  false && success (failure "Dimensions and weight must be positive numbers")
  = false /\
  let st := hooks (snd (handleSubmit parseFloat_exact (fun _ _ => refusal)
                          sample_form idle)) in
  CalculatePage.error st <> "" /\
  errorBanner st =
    [Element "Alert" [("variant", PStr "danger"); ("dismissible", PBool true)]
       [icon "ExclamationTriangle" "me-2"; Text (CalculatePage.error st)]].
Proof.
  split; [reflexivity |]. split; [reflexivity |]. split; [reflexivity |].
  destruct (refused_response_shows_banner parseFloat_exact (fun _ _ => refusal)
              sample_form idle false
              (failure "Dimensions and weight must be positive numbers")
              eq_refl eq_refl eq_refl) as (Hne & _ & Hbanner).
  split; [exact Hne | exact Hbanner].
Defined.

Lemma submit_after_reset_is_rejected_witness :
  isNaN (parseFloat_exact "") = true /\
  let w1 := snd (handleReset (mkWorld answered [] false)) in
  let run := handleSubmit parseFloat_exact (fun _ _ => refusal)
               (formData (hooks w1)) w1 in
  fst run = Returns /\
  CalculatePage.error (hooks (snd run))
    = "Please enter a valid positive number for length cm" /\
  result (hooks (snd run)) = None /\
  sent (snd run) = [].
Proof.
  split; [reflexivity |].
  exact (submit_after_reset_is_rejected parseFloat_exact (fun _ _ => refusal)
           (mkWorld answered [] false) eq_refl).
Defined.

Lemma run_keeps_page_at_rest_witness :
  atRest (hooks idle) /\
  (exists w', run parseFloat_exact session idle = Some w' /\
     loading (hooks w') = false /\
     forall r, result (hooks w') = Some r ->
       success r = true /\ CalculatePage.error (hooks w') = "").
Proof.
  assert (Hrest : atRest (hooks idle)).
  { split; [reflexivity | intros r Hr; discriminate Hr]. }
  split; [exact Hrest |].
  destruct (run parseFloat_exact session idle) as [w' |] eqn:Hrun;
    [| vm_compute in Hrun; discriminate Hrun].
  exists w'. split; [reflexivity |].
  destruct (run_keeps_page_at_rest parseFloat_exact session idle w' Hrest Hrun)
    as (Hload & Hres & _).
  split; [exact Hload | exact Hres].
Defined.


End MoreSamples.
